(** * cascadestore: a tiered session store (Request / Memcache / Datastore)

    Shallow embedding of [store.go] and the properties of its save, load
    and delete cascades.

    The store talks to three services that are not part of the package:
    the per-request context of gorilla/context (an in-memory map), App
    Engine's memcache and App Engine's datastore.  The request context is
    modelled as a finite map; memcache and datastore are kept abstract: a
    state type and one transition function per call the package makes
    (class [Services]).  Every theorem of the development therefore holds
    for all behaviours of the two services; the in-memory services of
    module [Mem] are used to run the code on concrete inputs. *)

From Stdlib Require Import ZArith Lia.
From stdpp Require Import base option list gmap strings pretty.

Local Open Scope Z_scope.

(** ** Go values *)

(** Go [error] values. [None : option error] is the nil error.  The
    sentinels are compared with [==] in the source, here with [decide]. *)
Inductive error :=
| ValueTooBigError                (* var ValueTooBigError *)
| ErrCacheMiss                    (* memcache.ErrCacheMiss *)
| ErrNoSuchEntity                 (* datastore.ErrNoSuchEntity *)
| ErrNoCookie                     (* http.ErrNoCookie *)
| TypeAssertionError              (* *runtime.TypeAssertionError, a runtime.Error *)
| OtherError (msg : string).      (* any other error value *)

#[global] Instance error_eq_dec : EqDecision error.
Proof. solve_decision. Defined.

(** A Go [[]byte]: [None] is the nil slice, [Some l] a non-nil slice
    (possibly of length 0).  The source tests [value == nil]. *)
Definition bytes := option (list Byte.byte).

Definition len (b : bytes) : Z :=
  match b with
  | None => 0
  | Some l => Z.of_nat (length l)
  end.

Definition isNil {A : Type} (o : option A) : bool :=
  match o with
  | None => true
  | Some _ => false
  end.

(** [time.Time] as nanoseconds since the epoch, [time.Duration] as the
    int64 count of nanoseconds it is. *)
Definition time := Z.
Definition duration := Z.

Definition Second : duration := 1000000000.

(** Two's complement wrap-around of int64 arithmetic. *)
Definition wrap64 (z : Z) : Z := (z + 2 ^ 63) mod 2 ^ 64 - 2 ^ 63.

Definition Before (t u : time) : bool := t <? u.
Definition Add (t : time) (d : duration) : time := t + d.

(** ** Constants of the package *)

Definition RequestBackend : Z := Z.shiftl 1 0.
Definition MemcacheBackend : Z := Z.shiftl 1 1.
Definition DatastoreBackend : Z := Z.shiftl 1 2.

Definition DistributedBackends : Z := Z.lor MemcacheBackend DatastoreBackend.
Definition AllBackends : Z :=
  Z.lor (Z.lor RequestBackend MemcacheBackend) DatastoreBackend.

Definition DefaultExpireSeconds : Z := 86400 * 30.
Definition MaxValueLength : Z := 4096.
Definition DefaultMaxAgeSeconds : Z := 60 * 20.
Definition DefaultKeyPrefix : string := "session.".

(** [(cs.backendTypes & b) > 0] *)
Definition enabled (backendTypes b : Z) : bool := Z.land backendTypes b >? 0.

(** ** Records *)

(** For datastore. *)
Record sessionKind := {
  skValue : bytes;
  skExpiresAt : time
}.

Record requestItem := {
  riValue : bytes;
  riExpiresAt : time
}.

(** [memcache.Item], the fields the package sets and reads. *)
Record memcacheItem := {
  Key : string;
  Value : bytes;
  Expiration : duration
}.

(** [datastore.NewKey(ctx, kind, stringID, intID, nil)] *)
Record dsKey := {
  kKind : string;
  kStringID : string;
  kIntID : Z
}.

Definition NewKey (kind stringID : string) (intID : Z) : dsKey :=
  {| kKind := kind; kStringID := stringID; kIntID := intID |}.

(** [sessions.Options] *)
Record sessionsOptions := {
  Path : string;
  Domain : string;
  MaxAge : Z;
  Secure : bool;
  HttpOnly : bool
}.

Definition zeroOptions : sessionsOptions :=
  {| Path := ""; Domain := ""; MaxAge := 0; Secure := false; HttpOnly := false |}.

(** The cookie built by [sessions.NewCookie(name, value, options)]: name,
    value and the options it is built from.  A negative [MaxAge] is the
    immediate-expiry directive. *)
Record httpCookie := {
  cName : string;
  cValue : string;
  cOptions : sessionsOptions
}.

Definition NewCookie (name value : string) (o : sessionsOptions) : httpCookie :=
  {| cName := name; cValue := value; cOptions := o |}.

(** The dynamic type of a value kept in the request context
    ([interface{}]).  [save] stores a [*requestItem]; the type assertion
    of [load] asks for a [requestItem]. *)
Inductive ctxval :=
| PtrRequestItem (it : requestItem)    (* dynamic type *requestItem *)
| ValRequestItem (it : requestItem)    (* dynamic type requestItem *)
| OtherValue.                          (* any other dynamic type *)

(** [itemRaw.(requestItem)] *)
Definition assertRequestItem (v : ctxval) : error + requestItem :=
  match v with
  | ValRequestItem it => inr it
  | PtrRequestItem _ | OtherValue => inl TypeAssertionError
  end.

(** An incoming request: its cookies, as name/value pairs. *)
Record Request := {
  reqCookies : list (string * string)
}.

(** [r.Cookie(name)] *)
Definition Cookie (r : Request) (name : string) : error + string :=
  match List.find (fun c => bool_decide (fst c = name)) (reqCookies r) with
  | Some c => inr (snd c)
  | None => inl ErrNoCookie
  end.

Inductive logLevel := DebugLevel | WarningLevel | ErrorLevel.

Inductive logArg :=
| ArgString (s : string)
| ArgError (e : error).

Record logEntry := {
  level : logLevel;
  format : string;
  arg : logArg
}.

(** ** Outcomes and the monad of function bodies

    A function body runs over a state (its named results and locals,
    paired with the world) and either falls off its end or panics with an
    error value; the state reached is kept in both cases, as a deferred
    function sees it. *)

Inductive outcome (A : Type) : Type :=
| Done (a : A)
| Panicked (e : error).
Arguments Done {A} a.
Arguments Panicked {A} e.

Definition M (S A : Type) : Type := S -> outcome A * S.

Definition ret {S A : Type} (a : A) : M S A := fun s => (Done a, s).

Definition bind {S A B : Type} (c : M S A) (k : A -> M S B) : M S B :=
  fun s =>
    match c s with
    | (Done a, s') => k a s'
    | (Panicked e, s') => (Panicked e, s')
    end.

Definition panic {S A : Type} (e : error) : M S A := fun s => (Panicked e, s).

Definition when {S : Type} (b : bool) (c : M S unit) : M S unit :=
  if b then c else ret tt.

(** [if err != nil { panic(err) }] *)
Definition panicOn {S : Type} (e : option error) : M S unit :=
  match e with
  | Some e => panic e
  | None => ret tt
  end.

Declare Scope go_scope.
Delimit Scope go_scope with go.
Notation "x <- c ;; k" := (bind c (fun x => k))
  (at level 100, c at next level, k at level 200, right associativity) : go_scope.
Notation "c ;; k" := (bind c (fun _ => k))
  (at level 100, k at level 200, right associativity) : go_scope.

(** ** The services the package calls

    App Engine's memcache and datastore: a state and, per call, the
    result returned together with the state left behind.  [memcache.Get]
    and [datastore.Get] return either an error or what was read. *)
Class Services (MC DS : Type) := {
  memcache_Set : memcacheItem -> MC -> option error * MC;
  memcache_Get : string -> MC -> (error + memcacheItem) * MC;
  memcache_Delete : string -> MC -> option error * MC;
  datastore_Put : dsKey -> sessionKind -> DS -> option error * DS;
  datastore_Get : dsKey -> DS -> (error + sessionKind) * DS;
  datastore_Delete : dsKey -> DS -> option error * DS
}.

(** gorilla/securecookie: the codecs built from key pairs, the
    authenticated decoding and encoding of a session ID, and the random
    session ID of [Save], [strings.TrimRight(base32(GenerateRandomKey(32)), "=")],
    as the n-th draw of the random source. *)
Class SecureCookie (Codec : Type) := {
  CodecsFromPairs : list bytes -> list Codec;
  DecodeMulti : string -> string -> list Codec -> error + string;
  EncodeMulti : string -> string -> list Codec -> error + string;
  GenerateSessionID : nat -> string
}.

Section Model.

Context {VM Codec MC DS : Type}.
Context `{!Services MC DS} `{!SecureCookie Codec}.

(** [make(map[interface{}]interface{})]: the value mapping of a fresh
    session.  The package never looks into a value mapping, so its type
    [VM] is left open. *)
Variable emptyValues : VM.

(** [sessions.Session] *)
Record Session := {
  ID : string;
  Values : VM;
  sessOptions : sessionsOptions;      (* session.Options *)
  IsNew : bool;
  sessName : string                   (* session.Name() *)
}.

(** [sessions.NewSession(cs, name)] *)
Definition NewSession (name : string) : Session :=
  {| ID := ""; Values := emptyValues; sessOptions := zeroOptions;
     IsNew := false; sessName := name |}.

Definition setID (id : string) (s : Session) : Session :=
  {| ID := id; Values := Values s; sessOptions := sessOptions s;
     IsNew := IsNew s; sessName := sessName s |}.

Definition setOptions (o : sessionsOptions) (s : Session) : Session :=
  {| ID := ID s; Values := Values s; sessOptions := o;
     IsNew := IsNew s; sessName := sessName s |}.

Definition setIsNew (b : bool) (s : Session) : Session :=
  {| ID := ID s; Values := Values s; sessOptions := sessOptions s;
     IsNew := b; sessName := sessName s |}.

(** The [SessionSerializer] interface.  [Deserialize] writes into the
    session it is given and returns an error. *)
Record SessionSerializer := {
  Serialize : Session -> bytes * option error;
  Deserialize : bytes -> Session -> Session * option error
}.

Record CascadeStore := {
  backendTypes : Z;
  maxLength : Z;
  keyPrefix : string;
  serializer : SessionSerializer;
  Codecs : list Codec;
  Options : sessionsOptions;          (* default configuration *)
  DefaultMaxAge : Z                   (* default TTL for a MaxAge == 0 session *)
}.

(** The serializer [NewCascadeStore] installs; its definition is in a
    file of the package that is not at hand. *)
Variable GobSerializer : SessionSerializer.

Definition NewCascadeStore (backendTypes : Z) (keyPairs : list bytes) : CascadeStore :=
  {| backendTypes := backendTypes;
     maxLength := MaxValueLength;
     keyPrefix := DefaultKeyPrefix;
     serializer := GobSerializer;
     Codecs := CodecsFromPairs keyPairs;
     Options := {| Path := "/"; Domain := ""; MaxAge := DefaultExpireSeconds;
                   Secure := false; HttpOnly := false |};
     DefaultMaxAge := DefaultMaxAgeSeconds |}.

Definition SetMaxLength (l : Z) (cs : CascadeStore) : CascadeStore :=
  if l >=? 0 then
    {| backendTypes := backendTypes cs; maxLength := l; keyPrefix := keyPrefix cs;
       serializer := serializer cs; Codecs := Codecs cs; Options := Options cs;
       DefaultMaxAge := DefaultMaxAge cs |}
  else cs.

Definition SetKeyPrefix (p : string) (cs : CascadeStore) : CascadeStore :=
  {| backendTypes := backendTypes cs; maxLength := maxLength cs; keyPrefix := p;
     serializer := serializer cs; Codecs := Codecs cs; Options := Options cs;
     DefaultMaxAge := DefaultMaxAge cs |}.

Definition SetSerializer (ss : SessionSerializer) (cs : CascadeStore) : CascadeStore :=
  {| backendTypes := backendTypes cs; maxLength := maxLength cs;
     keyPrefix := keyPrefix cs; serializer := ss; Codecs := Codecs cs;
     Options := Options cs; DefaultMaxAge := DefaultMaxAge cs |}.

(** ** The world a request handler runs in *)
Record World := {
  ctx : gmap string ctxval;     (* gorilla/context of the request r *)
  mc : MC;                      (* memcache *)
  ds : DS;                      (* datastore *)
  clock : time;                 (* what time.Now() returns *)
  resp : list httpCookie;       (* Set-Cookie headers of the response w *)
  entropy : nat;                (* draws made from the random source *)
  logs : list logEntry          (* appengine/log, oldest first *)
}.

Definition setCtx (c : gmap string ctxval) (w : World) : World :=
  {| ctx := c; mc := mc w; ds := ds w; clock := clock w; resp := resp w;
     entropy := entropy w; logs := logs w |}.

Definition setMc (m : MC) (w : World) : World :=
  {| ctx := ctx w; mc := m; ds := ds w; clock := clock w; resp := resp w;
     entropy := entropy w; logs := logs w |}.

Definition setDs (d : DS) (w : World) : World :=
  {| ctx := ctx w; mc := mc w; ds := d; clock := clock w; resp := resp w;
     entropy := entropy w; logs := logs w |}.

Definition setClock (t : time) (w : World) : World :=
  {| ctx := ctx w; mc := mc w; ds := ds w; clock := t; resp := resp w;
     entropy := entropy w; logs := logs w |}.

Definition setResp (r : list httpCookie) (w : World) : World :=
  {| ctx := ctx w; mc := mc w; ds := ds w; clock := clock w; resp := r;
     entropy := entropy w; logs := logs w |}.

Definition setEntropy (n : nat) (w : World) : World :=
  {| ctx := ctx w; mc := mc w; ds := ds w; clock := clock w; resp := resp w;
     entropy := n; logs := logs w |}.

Definition setLogs (l : list logEntry) (w : World) : World :=
  {| ctx := ctx w; mc := mc w; ds := ds w; clock := clock w; resp := resp w;
     entropy := entropy w; logs := l |}.

Definition logf (lv : logLevel) (fmt : string) (a : logArg) (w : World) : World :=
  setLogs (logs w ++ [{| level := lv; format := fmt; arg := a |}]) w.

(** [http.SetCookie(w, cookie)] *)
Definition SetCookie (c : httpCookie) (w : World) : World :=
  setResp (resp w ++ [c]) w.

(** *** Statements of a function body

    The state of a body is its locals [L] paired with the world. *)
Section Statements.

Context {L : Type}.

Definition readLocals : M (L * World) L := fun s => (Done (fst s), s).

Definition assign (f : L -> L) : M (L * World) unit :=
  fun s => (Done tt, (f (fst s), snd s)).

Definition effect (f : World -> World) : M (L * World) unit :=
  fun s => (Done tt, (fst s, f (snd s))).

Definition Debugf (fmt a : string) : M (L * World) unit :=
  effect (logf DebugLevel fmt (ArgString a)).

Definition Warningf (fmt a : string) : M (L * World) unit :=
  effect (logf WarningLevel fmt (ArgString a)).

(** [time.Now()] *)
Definition timeNow : M (L * World) time := fun s => (Done (clock (snd s)), s).

(** [gcontext.Set(r, key, val)], [gcontext.Get(r, key)] (nil when the key
    is absent) and [gcontext.Delete(r, key)] *)
Definition gcontextSet (key : string) (v : ctxval) : M (L * World) unit :=
  effect (fun w => setCtx (<[key := v]> (ctx w)) w).

Definition gcontextGet (key : string) : M (L * World) (option ctxval) :=
  fun s => (Done (ctx (snd s) !! key), s).

Definition gcontextDelete (key : string) : M (L * World) unit :=
  effect (fun w => setCtx (delete key (ctx w)) w).

Definition memcacheSet (item : memcacheItem) : M (L * World) (option error) :=
  fun s => let r := memcache_Set item (mc (snd s)) in
           (Done (fst r), (fst s, setMc (snd r) (snd s))).

Definition memcacheGet (key : string) : M (L * World) (error + memcacheItem) :=
  fun s => let r := memcache_Get key (mc (snd s)) in
           (Done (fst r), (fst s, setMc (snd r) (snd s))).

Definition memcacheDelete (key : string) : M (L * World) (option error) :=
  fun s => let r := memcache_Delete key (mc (snd s)) in
           (Done (fst r), (fst s, setMc (snd r) (snd s))).

Definition datastorePut (k : dsKey) (e : sessionKind) : M (L * World) (option error) :=
  fun s => let r := datastore_Put k e (ds (snd s)) in
           (Done (fst r), (fst s, setDs (snd r) (snd s))).

Definition datastoreGet (k : dsKey) : M (L * World) (error + sessionKind) :=
  fun s => let r := datastore_Get k (ds (snd s)) in
           (Done (fst r), (fst s, setDs (snd r) (snd s))).

Definition datastoreDelete (k : dsKey) : M (L * World) (option error) :=
  fun s => let r := datastore_Delete k (ds (snd s)) in
           (Done (fst r), (fst s, setDs (snd r) (snd s))).

(** The deferred function of [save], [load] and [delete]:
<<
    defer func() {
        if r := recover(); r != nil {
            err := r.(error)
            log.Errorf(ctx, msg, err)
        }
    }()
>>
    [err :=] declares a variable of the closure: the named results of
    the enclosing function keep the values they had when the body
    panicked, and the function returns them. *)
Definition recovering (msg : string) (body : M (L * World) unit)
    (l : L) (w : World) : L * World :=
  match body (l, w) with
  | (Done _, s) => s
  | (Panicked e, s) => (fst s, logf ErrorLevel msg (ArgError e) (snd s))
  end.

End Statements.

Local Open Scope go_scope.

(** ** The cascades *)

(** The body of [delete]; its state is the named result [err]. *)
Definition delete_body (cs : CascadeStore) (session : Session)
    : M (option error * World) unit :=
  Debugf "Deleting session: [%s]" (ID session) ;;
  let key := keyPrefix cs +:+ ID session in
  when (enabled (backendTypes cs) RequestBackend)
    (Debugf "Removing session from Request: [%s]" key ;;
     gcontextDelete key) ;;
  when (enabled (backendTypes cs) MemcacheBackend)
    (Debugf "Removing session from Memcache: [%s]" key ;;
     e <- memcacheDelete key ;;
     match e with
     | Some e =>
         if decide (e = ErrCacheMiss)
         then Warningf "Tried and failed to remove old session from Memcache: [%s]" key
         else panic e
     | None => ret tt
     end) ;;
  when (enabled (backendTypes cs) DatastoreBackend)
    (Debugf "Removing session from Datastore: [%s]" key ;;
     let k := NewKey "Session" key 0 in
     e <- datastoreDelete k ;;
     match e with
     | Some _ => Warningf "Tried and failed to remove old session from Datastore: [%s]" key
     | None => ret tt
     end) ;;
  assign (fun _ => None).                                  (* return nil *)

(** [delete] removes the keys of a session; it returns its named result
    [err] and the world it leaves. *)
Definition delete (cs : CascadeStore) (session : Session) (w : World)
    : option error * World :=
  recovering "Could not delete session: %s" (delete_body cs session) None w.

(** The body of [save]; its state is the named result [err]. *)
Definition save_body (cs : CascadeStore) (session : Session)
    : M (option error * World) unit :=
  Debugf "Saving session: [%s]" (ID session) ;;
  let key := keyPrefix cs +:+ ID session in
  let r := Serialize (serializer cs) session in
  let serialized := fst r in
  assign (fun _ => snd r) ;;                     (* serialized, err = ... *)
  match snd r with
  | Some e => panic e
  | None =>
      if negb (maxLength cs =? 0) && (len serialized >? maxLength cs)
      then panic ValueTooBigError
      else ret tt
  end ;;
  let age := MaxAge (sessOptions session) in
  let age := if age =? 0 then DefaultMaxAge cs else age in
  let expires := wrap64 (Second * age) in
  now <- timeNow ;;
  let expiresAt := Add now expires in
  when (enabled (backendTypes cs) RequestBackend)
    (Debugf "Writing session to Request: [%s]" key ;;
     let item := PtrRequestItem {| riValue := serialized; riExpiresAt := expiresAt |} in
     gcontextSet key item) ;;
  when (enabled (backendTypes cs) MemcacheBackend)
    (Debugf "Writing session to Memcache: [%s]" key ;;
     let item := {| Key := key; Value := serialized; Expiration := expires |} in
     e <- memcacheSet item ;;
     panicOn e) ;;
  when (enabled (backendTypes cs) DatastoreBackend)
    (Debugf "Writing session to Datastore: [%s]" key ;;
     let s := {| skValue := serialized; skExpiresAt := expiresAt |} in
     let k := NewKey "Session" key 0 in
     e <- datastorePut k s ;;
     panicOn e) ;;
  assign (fun _ => None).                                  (* return nil *)

(** [save] stores the session; it returns its named result [err] and the
    world it leaves. *)
Definition save (cs : CascadeStore) (session : Session) (w : World)
    : option error * World :=
  recovering "Could not save session: %s" (save_body cs session) None w.

(** The named results [success] and [err] of [load], its local [value]
    and the session it writes into through its pointer. *)
Record loadFrame := {
  success : bool;
  err : option error;
  value : bytes;
  sess : Session
}.

Definition setSuccess (b : bool) (f : loadFrame) : loadFrame :=
  {| success := b; err := err f; value := value f; sess := sess f |}.

Definition setErr (e : option error) (f : loadFrame) : loadFrame :=
  {| success := success f; err := e; value := value f; sess := sess f |}.

Definition setValue (v : bytes) (f : loadFrame) : loadFrame :=
  {| success := success f; err := err f; value := v; sess := sess f |}.

Definition setSess (s : Session) (f : loadFrame) : loadFrame :=
  {| success := success f; err := err f; value := value f; sess := s |}.

(** [cs.delete(r, session)] called from a body. *)
Definition callDelete {L : Type} (cs : CascadeStore) (session : Session)
    : M (L * World) (option error) :=
  fun s => let r := delete cs session (snd s) in (Done (fst r), (fst s, snd r)).

(** [cs.serializer.Deserialize(value, session)] called from [load]. *)
Definition callDeserialize (cs : CascadeStore) (v : bytes)
    : M (loadFrame * World) (option error) :=
  fun s => let r := Deserialize (serializer cs) v (sess (fst s)) in
           (Done (snd r), (setSess (fst r) (fst s), snd s)).

Definition load_body (cs : CascadeStore) : M (loadFrame * World) unit :=
  assign (setSuccess false) ;;
  f <- readLocals ;;
  let session := sess f in
  Debugf "Loading session: [%s]" (ID session) ;;
  let key := keyPrefix cs +:+ ID session in
  now <- timeNow ;;
  f <- readLocals ;;
  when (isNil (value f) && enabled (backendTypes cs) RequestBackend)
    (* Try request. *)
    (itemRaw <- gcontextGet key ;;
     match itemRaw with
     | None => ret tt
     | Some raw =>
         match assertRequestItem raw with
         | inl e => panic e
         | inr item =>
             if Before now (riExpiresAt item)
             then assign (setValue (riValue item)) ;;
                  Debugf "Found session in request: [%s]" key
             else gcontextDelete key
         end
     end) ;;
  f <- readLocals ;;
  when (isNil (value f) && enabled (backendTypes cs) MemcacheBackend)
    (* Try memcache. *)
    (r <- memcacheGet key ;;
     match r with
     | inl e =>
         assign (setErr (Some e)) ;;             (* item, err = memcache.Get(...) *)
         if decide (e = ErrCacheMiss)
         then Debugf "Could not find session in Memcache: [%s]" key
         else panic e
     | inr item =>
         assign (setErr None) ;;
         assign (setValue (Value item)) ;;
         Debugf "Found session in Memcache: [%s]" key
     end) ;;
  f <- readLocals ;;
  when (isNil (value f) && enabled (backendTypes cs) DatastoreBackend)
    (* Try datastore. *)
    (let k := NewKey "Session" key 0 in
     r <- datastoreGet k ;;
     match r with
     | inl e =>
         if decide (e = ErrNoSuchEntity)
         then Debugf "Could not find session in Datastore: [%s]" key
         else panic e
     | inr s =>
         if Before now (skExpiresAt s)
         then assign (setValue (skValue s)) ;;
              Debugf "Found session in Datastore: [%s]" key
         else e <- callDelete cs session ;;
              panicOn e
     end) ;;
  f <- readLocals ;;
  when (negb (isNil (value f)))
    (e <- callDeserialize cs (value f) ;;
     panicOn e ;;
     assign (setSuccess true)) ;;
  assign (setErr None).                          (* return success, nil *)

(** The result of [load]: its named results and the session as [load]
    leaves it. *)
Record loadResult := {
  found : bool;
  loadErr : option error;
  loaded : Session
}.

(** [load] reads the session; [found] is true if there is session data. *)
Definition load (cs : CascadeStore) (session : Session) (w : World)
    : loadResult * World :=
  let r := recovering "Could not load session: %s" (load_body cs)
             {| success := false; err := None; value := None; sess := session |} w in
  ({| found := success (fst r); loadErr := err (fst r); loaded := sess (fst r) |},
   snd r).

(** ** The store facade *)

(** [Get] goes through the registry of gorilla/sessions, which calls
    [New] for a name it has not seen in the request; [SetMaxAge] sets the
    max-age of the default options and of the codecs.  Neither takes part
    in a cascade and they are not modelled. *)

(** [New] returns a session for the given name without adding it to the
    registry, and an error. *)
Definition New (cs : CascadeStore) (r : Request) (name : string) (w : World)
    : (Session * option error) * World :=
  let session := NewSession name in
  let session := setOptions (Options cs) session in       (* a copy *)
  let session := setIsNew true session in
  match Cookie r name with
  | inr c =>
      match DecodeMulti name c (Codecs cs) with
      | inr id =>
          let session := setID id session in
          let lr := load cs session w in
          let ok := found (fst lr) in
          let err' := loadErr (fst lr) in                 (* ok, err := cs.load(...) *)
          let session := setIsNew (negb (isNil err' && ok)) (loaded (fst lr)) in
          ((session, None), snd lr)
      | inl e => ((session, Some e), w)
      end
  | inl _ => ((session, None), w)
  end.

(** [Save] adds a single session to the response.  It returns its error
    and the session, whose ID it may have set. *)
Definition Save (cs : CascadeStore) (session : Session) (w : World)
    : (option error * Session) * World :=
  if MaxAge (sessOptions session) <? 0 then
    (* Marked for deletion. *)
    let d := delete cs session w in
    match fst d with
    | Some e => ((Some e, session), snd d)
    | None =>
        ((None, session),
         SetCookie (NewCookie (sessName session) "" (sessOptions session)) (snd d))
    end
  else
    let sw :=
      if decide (ID session = "")
      then (setID (GenerateSessionID (entropy w)) session, setEntropy (S (entropy w)) w)
      else (session, w) in
    let session := fst sw in
    let s := save cs session (snd sw) in
    match fst s with
    | Some e => ((Some e, session), snd s)
    | None =>
        match EncodeMulti (sessName session) (ID session) (Codecs cs) with
        | inl e => ((Some e, session), snd s)
        | inr encoded =>
            ((None, session),
             SetCookie (NewCookie (sessName session) encoded (sessOptions session)) (snd s))
        end
    end.

(** ** Vocabulary of the statements

    Names for expressions that [save], [load] and [delete] compute in
    line. *)

(** [key := cs.keyPrefix + session.ID] *)
Definition keyOf (cs : CascadeStore) (session : Session) : string :=
  keyPrefix cs +:+ ID session.

(** [k := datastore.NewKey(ctx, "Session", key, 0, nil)] *)
Definition entityOf (cs : CascadeStore) (session : Session) : dsKey :=
  NewKey "Session" (keyOf cs session) 0.

(** [cs.maxLength != 0 && len(serialized) > cs.maxLength] *)
Definition tooBig (cs : CascadeStore) (serialized : bytes) : bool :=
  negb (maxLength cs =? 0) && (len serialized >? maxLength cs).

(** [age], after [if age == 0 { age = cs.DefaultMaxAge }] *)
Definition ageOf (cs : CascadeStore) (session : Session) : Z :=
  if MaxAge (sessOptions session) =? 0 then DefaultMaxAge cs
  else MaxAge (sessOptions session).

(** [expires := time.Second * time.Duration(age)] *)
Definition expiresOf (cs : CascadeStore) (session : Session) : duration :=
  wrap64 (Second * ageOf cs session).

(** [serialized], the bytes [cs.serializer.Serialize(session)] returns *)
Definition serializedOf (cs : CascadeStore) (session : Session) : bytes :=
  fst (Serialize (serializer cs) session).

(** [save] gets past its size check: the serializer returned no error and
    the bytes are not too big. *)
Definition storable (cs : CascadeStore) (session : Session) : bool :=
  isNil (snd (Serialize (serializer cs) session)) &&
  negb (tooBig cs (serializedOf cs session)).

(** The records [save] builds at time [now]. *)
Definition requestItemOf (cs : CascadeStore) (session : Session) (now : time)
    : requestItem :=
  {| riValue := serializedOf cs session;
     riExpiresAt := Add now (expiresOf cs session) |}.

Definition memcacheItemOf (cs : CascadeStore) (session : Session) : memcacheItem :=
  {| Key := keyOf cs session; Value := serializedOf cs session;
     Expiration := expiresOf cs session |}.

Definition sessionKindOf (cs : CascadeStore) (session : Session) (now : time)
    : sessionKind :=
  {| skValue := serializedOf cs session;
     skExpiresAt := Add now (expiresOf cs session) |}.

(** A memcache that takes the item and returns its value at the next
    read; a datastore that takes the entity and returns it at the next
    read. *)
Definition memcacheKeeps (item : memcacheItem) (m : MC) : Prop :=
  fst (memcache_Set item m) = None /\
  exists it, fst (memcache_Get (Key item) (snd (memcache_Set item m))) = inr it /\
             Value it = Value item.

Definition datastoreKeeps (k : dsKey) (e : sessionKind) (d : DS) : Prop :=
  fst (datastore_Put k e d) = None /\
  fst (datastore_Get k (snd (datastore_Put k e d))) = inr e.

(** The Request tier gives [load] no value and the search goes on: the
    tier is off, or holds nothing under the key, or holds a [requestItem]
    that has expired. *)
Definition requestMisses (cs : CascadeStore) (session : Session) (w : World) : Prop :=
  enabled (backendTypes cs) RequestBackend = false \/
  ctx w !! keyOf cs session = None \/
  exists it, ctx w !! keyOf cs session = Some (ValRequestItem it) /\
             Before (clock w) (riExpiresAt it) = false.

(** Memcache gives [load] no value and the search goes on: the tier is
    off, or reports a cache miss. *)
Definition memcacheMisses (cs : CascadeStore) (session : Session) (w : World) : Prop :=
  enabled (backendTypes cs) MemcacheBackend = false \/
  fst (memcache_Get (keyOf cs session) (mc w)) = inl ErrCacheMiss.

(** A serializer whose [Deserialize], when it returns an error, has left
    the value mapping of the session as it was. *)
Definition failsClean (ser : SessionSerializer) : Prop :=
  forall b session,
    snd (Deserialize ser b session) <> None ->
    Values (fst (Deserialize ser b session)) = Values session.

(** A memcache delete that lets the delete cascade go on: no error, or a
    cache miss. *)
Definition passes (e : option error) : bool :=
  match e with
  | None => true
  | Some e => bool_decide (e = ErrCacheMiss)
  end.

(** The last entry of the log of a world. *)
Definition lastLog (w : World) : option logEntry := last (logs w).

End Model.

Arguments NewSession {VM} emptyValues name.
Arguments NewCascadeStore {VM Codec _} GobSerializer backendTypes keyPairs.
Arguments New {VM Codec MC DS _ _} emptyValues cs r name w.

(** ** Configuration after construction *)

(** The type assertion of [SetMaxAge] on [cs.Codecs[i]] followed by
    [c.MaxAge(v)]: the codec after the call when it is a pointer to a
    [securecookie.SecureCookie], nothing when it is of another type. *)
Class CodecMaxAge (Codec : Type) := {
  codecMaxAge : Z -> Codec -> option Codec
}.

Section Configuration.

Context {VM Codec : Type}.
Context `{!CodecMaxAge Codec}.

Implicit Types (cs : CascadeStore (VM := VM) (Codec := Codec)).

(** The loop of [SetMaxAge] over [cs.Codecs]: the codecs it leaves, and
    whether it ran to its end or panicked. *)
Fixpoint setCodecsMaxAge (v : Z) (codecs : list Codec) : outcome unit * list Codec :=
  match codecs with
  | [] => (Done tt, [])
  | c :: rest =>
      match codecMaxAge v c with
      | Some c' =>
          let r := setCodecsMaxAge v rest in
          (fst r, c' :: snd r)
      | None => (Panicked (OtherError "Can't change MaxAge on codec"), c :: rest)
      end
  end.

(** [SetMaxAge] changes the store through its pointer: what it has
    written stays when it panics. *)
Definition SetMaxAge (v : Z) cs : outcome unit * CascadeStore :=
  let o := Options cs in
  let o' := {| Path := Path o; Domain := Domain o; MaxAge := v;
               Secure := Secure o; HttpOnly := HttpOnly o |} in
  let r := setCodecsMaxAge v (Codecs cs) in
  (fst r,
   {| backendTypes := backendTypes cs; maxLength := maxLength cs;
      keyPrefix := keyPrefix cs; serializer := serializer cs;
      Codecs := snd r; Options := o'; DefaultMaxAge := DefaultMaxAge cs |}).

(** A call to one of the setters that cannot panic, and a sequence of
    such calls on a store. *)
Inductive setting :=
| MaxLengthSetting (l : Z)
| KeyPrefixSetting (p : string)
| SerializerSetting (ss : SessionSerializer (VM := VM)).

Definition applySetting (o : setting) cs : CascadeStore :=
  match o with
  | MaxLengthSetting l => SetMaxLength l cs
  | KeyPrefixSetting p => SetKeyPrefix p cs
  | SerializerSetting ss => SetSerializer ss cs
  end.

Definition configure (ops : list setting) cs : CascadeStore :=
  fold_left (fun cs o => applySetting o cs) ops cs.

End Configuration.

Section LaterRequests.

Context {MC DS : Type}.


End LaterRequests.

(** ** In-memory services

    A memcache and a datastore kept in finite maps, each with a switch per
    call that makes the call fail with a given error; a codec that signs a
    session ID by prefixing it.  They are used to run the cascades on
    concrete inputs. *)
Module Mem.

Record cells (K V : Type) `{Countable K} := {
  held : gmap K V;
  failWrite : option error;
  failRead : option error;
  failDelete : option error
}.
Arguments held {K V _ _} c.
Arguments failWrite {K V _ _} c.
Arguments failRead {K V _ _} c.
Arguments failDelete {K V _ _} c.

Definition setHeld {K V : Type} `{Countable K} (m : gmap K V) (c : cells K V) : cells K V :=
  {| held := m; failWrite := failWrite c; failRead := failRead c;
     failDelete := failDelete c |}.

Definition healthy {K V : Type} `{Countable K} (m : gmap K V) : cells K V :=
  {| held := m; failWrite := None; failRead := None; failDelete := None |}.

Definition MC := cells string memcacheItem.
Definition DS := cells (string * string) sessionKind.

Definition entity (k : dsKey) : string * string := (kKind k, kStringID k).

#[global] Instance services : Services MC DS := {
  memcache_Set item m :=
    match failWrite m with
    | Some e => (Some e, m)
    | None => (None, setHeld (<[Key item := item]> (held m)) m)
    end;
  memcache_Get key m :=
    match failRead m with
    | Some e => (inl e, m)
    | None =>
        match held m !! key with
        | Some item => (inr item, m)
        | None => (inl ErrCacheMiss, m)
        end
    end;
  memcache_Delete key m :=
    match failDelete m with
    | Some e => (Some e, m)
    | None =>
        match held m !! key with
        | Some _ => (None, setHeld (base.delete key (held m)) m)
        | None => (Some ErrCacheMiss, m)
        end
    end;
  datastore_Put k e d :=
    match failWrite d with
    | Some e => (Some e, d)
    | None => (None, setHeld (<[entity k := e]> (held d)) d)
    end;
  datastore_Get k d :=
    match failRead d with
    | Some e => (inl e, d)
    | None =>
        match held d !! entity k with
        | Some e => (inr e, d)
        | None => (inl ErrNoSuchEntity, d)
        end
    end;
  datastore_Delete k d :=
    match failDelete d with
    | Some e => (Some e, d)
    | None => (None, setHeld (base.delete (entity k) (held d)) d)
    end
}.

(** A cookie value is valid when it is ["signed:"] followed by the ID. *)
#[global] Instance codec : SecureCookie unit := {
  CodecsFromPairs pairs := List.map (fun _ => tt) pairs;
  DecodeMulti name v codecs :=
    if String.prefix "signed:" v
    then inr (String.substring 7 (String.length v - 7) v)
    else inl (OtherError "securecookie: the value is not valid");
  EncodeMulti name id codecs := inr ("signed:" +:+ id);
  GenerateSessionID n := "SID" +:+ pretty n
}.

(** Value mappings are byte strings and serialize as themselves. *)
Definition VM := list Byte.byte.

Definition plainSerializer : SessionSerializer (VM := VM) :=
  {| Serialize s := (Some (Values s), None);
     Deserialize b s :=
       match b with
       | Some l =>
           ({| ID := ID s; Values := l; sessOptions := sessOptions s;
               IsNew := IsNew s; sessName := sessName s |}, None)
       | None => (s, Some (OtherError "unexpected EOF"))
       end |}.

(** A serializer that cannot encode. *)
Definition brokenSerializer : SessionSerializer (VM := VM) :=
  {| Serialize s := (None, Some (OtherError "gob: type not registered"));
     Deserialize b s := (s, Some (OtherError "gob: type not registered")) |}.

Definition world0 : World (MC := MC) (DS := DS) :=
  {| ctx := ∅; mc := healthy ∅; ds := healthy ∅; clock := 1000 * Second;
     resp := []; entropy := 0%nat; logs := [] |}.

Definition store (backends : Z) : CascadeStore (VM := VM) (Codec := unit) :=
  NewCascadeStore plainSerializer backends [].

Definition alice : Session (VM := VM) :=
  {| ID := "abc"; Values := [Byte.x61; Byte.x6c]; sessOptions := zeroOptions;
     IsNew := false; sessName := "sid" |}.

Definition blank (id : string) : Session (VM := VM) :=
  {| ID := id; Values := []; sessOptions := zeroOptions;
     IsNew := true; sessName := "sid" |}.

(** The same session, marked for deletion. *)
Definition loggedOut : Session (VM := VM) :=
  setOptions {| Path := "/"; Domain := ""; MaxAge := -1; Secure := false;
                HttpOnly := false |} alice.

(** A store that takes one byte at most, and a store with no tier whose
    serializer cannot encode. *)
Definition smallStore : CascadeStore (VM := VM) (Codec := unit) :=
  SetMaxLength 1 (store AllBackends).

Definition brokenStore : CascadeStore (VM := VM) (Codec := unit) :=
  SetSerializer brokenSerializer (store 0).

Definition serverError : error := OtherError "server error".

(** Services that are down for writes, for reads, for deletes. *)
Definition writesFail {K V : Type} `{Countable K} (c : cells K V) : cells K V :=
  {| held := held c; failWrite := Some serverError; failRead := failRead c;
     failDelete := failDelete c |}.

Definition readsFail {K V : Type} `{Countable K} (c : cells K V) : cells K V :=
  {| held := held c; failWrite := failWrite c; failRead := Some serverError;
     failDelete := failDelete c |}.

Definition deletesFail {K V : Type} `{Countable K} (c : cells K V) : cells K V :=
  {| held := held c; failWrite := failWrite c; failRead := failRead c;
     failDelete := Some serverError |}.

(** The record of [alice] in the Datastore, expired since long. *)
Definition staleRecord : sessionKind :=
  {| skValue := Some [Byte.x61; Byte.x6c]; skExpiresAt := 1 * Second |}.

Definition staleWorld : World (MC := MC) (DS := DS) :=
  setDs (healthy {[ ("Session", "session.abc") := staleRecord ]}) world0.

Definition noCookie : Request := {| reqCookies := [] |}.
Definition corruptCookie : Request := {| reqCookies := [("sid", "garbage")] |}.


(** A session that has not been saved yet. *)
Definition unsaved : Session (VM := VM) :=
  {| ID := ""; Values := [Byte.x61]; sessOptions := zeroOptions;
     IsNew := true; sessName := "sid" |}.

(** The record of [alice] in the Datastore, not expired. *)
Definition freshRecord : sessionKind :=
  {| skValue := Some [Byte.x61; Byte.x6c]; skExpiresAt := 2000 * Second |}.

Definition freshWorld : World (MC := MC) (DS := DS) :=
  setDs (healthy {[ ("Session", "session.abc") := freshRecord ]}) world0.

(** A request context that another handler uses too. *)
Definition sharedWorld : World (MC := MC) (DS := DS) :=
  setCtx {[ "other" := OtherValue ]} world0.

(** Codecs with a max-age, [None] being a codec of another type. *)
#[global] Instance agedCodec : CodecMaxAge (option Z) := {
  codecMaxAge v c :=
    match c with
    | Some _ => Some (Some v)
    | None => None
    end
}.

Definition mixedStore : CascadeStore (VM := VM) (Codec := option Z) :=
  {| backendTypes := AllBackends; maxLength := MaxValueLength;
     keyPrefix := DefaultKeyPrefix; serializer := plainSerializer;
     Codecs := [Some 0; None; Some 5]; Options := zeroOptions;
     DefaultMaxAge := DefaultMaxAgeSeconds |}.


(** [alice] with a max-age of some 292 years. *)
Definition longLived : Session (VM := VM) :=
  setOptions {| Path := "/"; Domain := ""; MaxAge := 9223372037; Secure := false;
                HttpOnly := false |} alice.

End Mem.


(** * Properties of the cascades *)

Ltac go_statements :=
  unfold callDelete, callDeserialize, recovering, bind, when, panicOn, ret, panic,
    assign, effect, Debugf, Warningf, timeNow, readLocals, gcontextSet,
    gcontextGet, gcontextDelete, memcacheSet, memcacheGet, memcacheDelete,
    datastorePut, datastoreGet, datastoreDelete in *.

Ltac go_unfold :=
  unfold save, save_body, delete, delete_body, load, load_body in *; go_statements.

Ltac go_vocab :=
  unfold storable, tooBig, memcacheItemOf, sessionKindOf, requestItemOf,
    serializedOf, expiresOf, ageOf, entityOf, keyOf, passes, lastLog in *.

(** Case analysis on a scrutinee that is not itself a case analysis. *)
Ltac go_case :=
  match goal with
  | |- context [match ?x with _ => _ end] =>
      lazymatch x with
      | context [match _ with _ => _ end] => fail
      | _ => first [ match goal with H : x = _ |- _ => rewrite H end
                   | destruct x eqn:? ]
      end
  end.

(** The tiers that are switched on are decided first. *)
Ltac go_flags :=
  repeat match goal with
         | |- context [enabled ?a ?b] => destruct (enabled a b) eqn:?
         end.

Ltac go_run := go_unfold; go_flags; cbn; repeat (go_case; cbn in * ).

Ltac go_done :=
  try reflexivity; try congruence;
  try (repeat case_bool_decide; simplify_eq; try reflexivity; congruence).

Section DeleteFacts.

Context {VM Codec MC DS : Type}.
Context `{!Services MC DS} `{!SecureCookie Codec}.

Implicit Types (cs : CascadeStore (VM := VM) (Codec := Codec)).
Implicit Types (session : Session (VM := VM)).
Implicit Types (w : World (MC := MC) (DS := DS)).

(** *** delete *)

Lemma delete_returns_nil cs session w : fst (delete cs session w) = None.
Proof. go_run; reflexivity. Qed.

Lemma delete_ctx cs session w :
  ctx (snd (delete cs session w)) =
  if enabled (backendTypes cs) RequestBackend
  then base.delete (keyOf cs session) (ctx w) else ctx w.
Proof. unfold keyOf. go_run; reflexivity. Qed.

Lemma delete_mc cs session w :
  mc (snd (delete cs session w)) =
  if enabled (backendTypes cs) MemcacheBackend
  then snd (memcache_Delete (keyOf cs session) (mc w)) else mc w.
Proof. unfold keyOf. go_run; reflexivity. Qed.

Lemma delete_ds cs session w :
  ds (snd (delete cs session w)) =
  if enabled (backendTypes cs) DatastoreBackend &&
     (negb (enabled (backendTypes cs) MemcacheBackend) ||
      passes (fst (memcache_Delete (keyOf cs session) (mc w))))
  then snd (datastore_Delete (entityOf cs session) (ds w)) else ds w.
Proof.
  unfold entityOf, keyOf, passes. go_run; go_done.
Qed.

(** A Memcache delete error other than a cache miss is logged by the
    deferred function; a Datastore delete error is logged as a warning. *)
Lemma delete_logs_memcache_failure cs session w e :
  enabled (backendTypes cs) MemcacheBackend = true ->
  fst (memcache_Delete (keyOf cs session) (mc w)) = Some e ->
  e <> ErrCacheMiss ->
  lastLog (snd (delete cs session w)) =
  Some {| level := ErrorLevel; format := "Could not delete session: %s";
          arg := ArgError e |}.
Proof.
  intros Hm He Hne. go_vocab. go_unfold. rewrite Hm.
  go_flags; cbn; rewrite He; cbn; destruct (decide (e = ErrCacheMiss)); try done;
    cbn; by rewrite last_snoc.
Qed.

Lemma delete_logs_datastore_failure cs session w e :
  enabled (backendTypes cs) DatastoreBackend = true ->
  enabled (backendTypes cs) MemcacheBackend = false \/
  passes (fst (memcache_Delete (keyOf cs session) (mc w))) = true ->
  fst (datastore_Delete (entityOf cs session) (ds w)) = Some e ->
  lastLog (snd (delete cs session w)) =
  Some {| level := WarningLevel;
          format := "Tried and failed to remove old session from Datastore: [%s]";
          arg := ArgString (keyOf cs session) |}.
Proof.
  intros Hd Hreach He. go_vocab. go_unfold. rewrite Hd.
  destruct Hreach as [Hm | Hpass].
  - rewrite Hm. go_flags; cbn; rewrite He; cbn; by rewrite last_snoc.
  - go_flags; cbn; repeat (go_case; cbn in * ); simplify_eq;
      try (by rewrite last_snoc); by case_bool_decide.
Qed.

End DeleteFacts.

(** [load] with the nested [delete] kept as a call. *)
Ltac go_load :=
  unfold load, load_body in *; go_statements; go_flags; cbn;
  repeat (rewrite ?delete_returns_nil; go_case; cbn).

Ltac go_misses :=
  unfold requestMisses, memcacheMisses in *;
  repeat match goal with
         | H : _ \/ _ |- _ => destruct H as [H | H]
         | H : exists _, _ |- _ => destruct H as [? H]
         | H : _ /\ _ |- _ => destruct H as [? ?]
         end.

(** *** save *)

Section SaveFacts.

Context {VM Codec MC DS : Type}.
Context `{!Services MC DS} `{!SecureCookie Codec}.

Implicit Types (cs : CascadeStore (VM := VM) (Codec := Codec)).
Implicit Types (session : Session (VM := VM)).
Implicit Types (w : World (MC := MC) (DS := DS)).

Lemma enabled_zero b : enabled 0 b = false.
Proof. reflexivity. Qed.

(** A session that is too big: [save] recovers from the panic it raises and
    returns its named result, which is still the nil that [Serialize]
    returned; no tier has been written. *)
Lemma save_too_big cs session w :
  snd (Serialize (serializer cs) session) = None ->
  tooBig cs (fst (Serialize (serializer cs) session)) = true ->
  save cs session w =
  (None,
   logf ErrorLevel "Could not save session: %s" (ArgError ValueTooBigError)
     (logf DebugLevel "Saving session: [%s]" (ArgString (ID session)) w)).
Proof.
  unfold tooBig. intros Hs Hb. go_unfold. cbn. rewrite Hs. cbn. rewrite Hb. reflexivity.
Qed.

(** A serializer error is assigned to the named result before the panic,
    and is what [save] returns. *)
Lemma save_serializer_error cs session w e :
  snd (Serialize (serializer cs) session) = Some e ->
  save cs session w =
  (Some e,
   logf ErrorLevel "Could not save session: %s" (ArgError e)
     (logf DebugLevel "Saving session: [%s]" (ArgString (ID session)) w)).
Proof. intros Hs. go_unfold. cbn. rewrite Hs. reflexivity. Qed.

Lemma storable_inv cs session :
  storable cs session = true ->
  snd (Serialize (serializer cs) session) = None /\
  negb (maxLength cs =? 0) && (len (fst (Serialize (serializer cs) session)) >? maxLength cs) = false.
Proof.
  go_vocab. intros H. apply andb_prop in H as [H1 H2].
  split; [by destruct (snd _) | by apply negb_true_iff in H2].
Qed.

(** The tiers after a [save] that got past its size check. *)
Lemma save_ctx cs session w :
  storable cs session = true ->
  ctx (snd (save cs session w)) =
  if enabled (backendTypes cs) RequestBackend
  then <[keyOf cs session := PtrRequestItem (requestItemOf cs session (clock w))]> (ctx w)
  else ctx w.
Proof.
  intros [Hs Hb]%storable_inv. go_vocab. go_unfold. cbn. rewrite Hs. cbn. rewrite Hb.
  go_flags; cbn; repeat (go_case; cbn in * ); go_done.
Qed.

Lemma save_mc cs session w :
  storable cs session = true ->
  mc (snd (save cs session w)) =
  if enabled (backendTypes cs) MemcacheBackend
  then snd (memcache_Set (memcacheItemOf cs session) (mc w))
  else mc w.
Proof.
  intros [Hs Hb]%storable_inv. go_vocab. go_unfold. cbn. rewrite Hs. cbn. rewrite Hb.
  go_flags; cbn; repeat (go_case; cbn in * ); go_done.
Qed.

Lemma save_ds cs session w :
  storable cs session = true ->
  ds (snd (save cs session w)) =
  if enabled (backendTypes cs) DatastoreBackend &&
     (negb (enabled (backendTypes cs) MemcacheBackend) ||
      isNil (fst (memcache_Set (memcacheItemOf cs session) (mc w))))
  then snd (datastore_Put (entityOf cs session) (sessionKindOf cs session (clock w)) (ds w))
  else ds w.
Proof.
  intros [Hs Hb]%storable_inv. go_vocab. go_unfold. cbn. rewrite Hs. cbn. rewrite Hb.
  go_flags; cbn; repeat (go_case; cbn in * ); go_done.
Qed.

(** [save] returns what the serializer returned as its error: no later
    failure reaches the named result. *)
Lemma save_result cs session w :
  fst (save cs session w) = snd (Serialize (serializer cs) session).
Proof.
  go_unfold. cbn. destruct (snd (Serialize _ _)) eqn:Hs; cbn; [done |].
  go_flags; cbn; repeat (go_case; cbn); done.
Qed.

Lemma save_clock cs session w : clock (snd (save cs session w)) = clock w.
Proof. go_run; done. Qed.

(** A failed write is logged by the deferred function of [save]. *)
Lemma save_logs_memcache_failure cs session w e :
  storable cs session = true ->
  enabled (backendTypes cs) MemcacheBackend = true ->
  fst (memcache_Set (memcacheItemOf cs session) (mc w)) = Some e ->
  lastLog (snd (save cs session w)) =
  Some {| level := ErrorLevel; format := "Could not save session: %s";
          arg := ArgError e |}.
Proof.
  intros [Hs Hb]%storable_inv Hm He. go_vocab. go_unfold. cbn. rewrite Hs. cbn.
  rewrite Hb, Hm. go_flags; cbn; rewrite He; cbn; by rewrite last_snoc.
Qed.

Lemma save_logs_datastore_failure cs session w e :
  storable cs session = true ->
  enabled (backendTypes cs) DatastoreBackend = true ->
  enabled (backendTypes cs) MemcacheBackend = false \/
  fst (memcache_Set (memcacheItemOf cs session) (mc w)) = None ->
  fst (datastore_Put (entityOf cs session) (sessionKindOf cs session (clock w)) (ds w))
  = Some e ->
  lastLog (snd (save cs session w)) =
  Some {| level := ErrorLevel; format := "Could not save session: %s";
          arg := ArgError e |}.
Proof.
  intros [Hs Hb]%storable_inv Hd Hreach He. go_vocab. go_unfold. cbn. rewrite Hs. cbn.
  rewrite Hb, Hd. destruct Hreach as [Hm | Hset].
  - rewrite Hm. go_flags; cbn; rewrite He; cbn; by rewrite last_snoc.
  - go_flags; cbn; rewrite ?Hset; cbn; rewrite He; cbn; by rewrite last_snoc.
Qed.

End SaveFacts.

(** *** load *)

Section LoadFacts.

Context {VM Codec MC DS : Type}.
Context `{!Services MC DS} `{!SecureCookie Codec}.

Implicit Types (cs : CascadeStore (VM := VM) (Codec := Codec)).
Implicit Types (session : Session (VM := VM)).
Implicit Types (w : World (MC := MC) (DS := DS)).

(** What [save] leaves in the request context is a [*requestItem]; the
    type assertion of [load] panics on it. *)
Lemma load_pointer_item cs session w it :
  enabled (backendTypes cs) RequestBackend = true ->
  ctx w !! keyOf cs session = Some (PtrRequestItem it) ->
  load cs session w =
  ({| found := false; loadErr := None; loaded := session |},
   logf ErrorLevel "Could not load session: %s" (ArgError TypeAssertionError)
     (logf DebugLevel "Loading session: [%s]" (ArgString (ID session)) w)).
Proof.
  unfold keyOf. intros He Hc. go_unfold. cbn. rewrite He. cbn. rewrite Hc. reflexivity.
Qed.

(** With no tier enabled [load] finds nothing and touches nothing. *)
Lemma load_no_tier cs session w :
  enabled (backendTypes cs) RequestBackend = false ->
  enabled (backendTypes cs) MemcacheBackend = false ->
  enabled (backendTypes cs) DatastoreBackend = false ->
  load cs session w =
  ({| found := false; loadErr := None; loaded := session |},
   logf DebugLevel "Loading session: [%s]" (ArgString (ID session)) w).
Proof. intros Hr Hm Hd. unfold load, load_body. go_statements. by rewrite Hr, Hm, Hd. Qed.

(** The session [load] leaves is the one it was given, unless it called
    [Deserialize]; it reports found only when that call returned no
    error. *)
Lemma load_session cs session w :
  let r := fst (load cs session w) in
  (found r = false /\ loaded r = session) \/
  exists b, loaded r = fst (Deserialize (serializer cs) b session) /\
            found r = isNil (snd (Deserialize (serializer cs) b session)) /\
            (found r = true -> loadErr r = None).
Proof.
  go_load;
    first [ left; split; reflexivity
          | right; eexists; split; [reflexivity |]; cbn;
            match goal with H : snd (Deserialize _ _ _) = _ |- _ => rewrite H end;
            split; [reflexivity | intros; first [reflexivity | discriminate]] ].
Qed.

(** A hit in Memcache. *)
Lemma load_memcache_hit cs session w it b :
  requestMisses cs session w ->
  enabled (backendTypes cs) MemcacheBackend = true ->
  fst (memcache_Get (keyOf cs session) (mc w)) = inr it ->
  Value it = Some b ->
  snd (Deserialize (serializer cs) (Some b) session) = None ->
  fst (load cs session w) =
  {| found := true; loadErr := None;
     loaded := fst (Deserialize (serializer cs) (Some b) session) |}.
Proof.
  intros Hreq Hm Hget Hv Hde. go_misses; go_vocab;
    unfold load, load_body; go_statements; cbn;
    repeat (rewrite ?Hv, ?Hde; cbn; go_case; cbn); rewrite ?Hv, ?Hde; go_done.
Qed.

(** A hit in the Datastore. *)
Lemma load_datastore_hit cs session w e b :
  requestMisses cs session w ->
  memcacheMisses cs session w ->
  enabled (backendTypes cs) DatastoreBackend = true ->
  fst (datastore_Get (entityOf cs session) (ds w)) = inr e ->
  Before (clock w) (skExpiresAt e) = true ->
  skValue e = Some b ->
  snd (Deserialize (serializer cs) (Some b) session) = None ->
  fst (load cs session w) =
  {| found := true; loadErr := None;
     loaded := fst (Deserialize (serializer cs) (Some b) session) |}.
Proof.
  intros Hreq Hmc Hd Hget Hfresh Hv Hde. go_misses; go_vocab;
    unfold load, load_body; go_statements; cbn;
    repeat (rewrite ?Hv, ?Hde; cbn; go_case; cbn); rewrite ?Hv, ?Hde; go_done.
Qed.

(** A Memcache read error other than a cache miss: [load] stops there and
    returns it, the assignment [item, err = memcache.Get(...)] having
    stored it in the named result. *)
Lemma load_memcache_failure cs session w e :
  requestMisses cs session w ->
  enabled (backendTypes cs) MemcacheBackend = true ->
  fst (memcache_Get (keyOf cs session) (mc w)) = inl e ->
  e <> ErrCacheMiss ->
  fst (load cs session w) =
    {| found := false; loadErr := Some e; loaded := session |} /\
  mc (snd (load cs session w)) = snd (memcache_Get (keyOf cs session) (mc w)) /\
  ds (snd (load cs session w)) = ds w /\
  lastLog (snd (load cs session w)) =
  Some {| level := ErrorLevel; format := "Could not load session: %s";
          arg := ArgError e |}.
Proof.
  intros Hreq Hm Hget Hne. go_misses; go_vocab;
    unfold load, load_body; go_statements; cbn;
    repeat (go_case; cbn); try congruence; by rewrite last_snoc.
Qed.

(** A Datastore read error other than "no such entity": [load] stops
    there; nothing is deserialized and the delete cascade is not run. *)
Lemma load_datastore_failure cs session w e :
  requestMisses cs session w ->
  memcacheMisses cs session w ->
  enabled (backendTypes cs) DatastoreBackend = true ->
  fst (datastore_Get (entityOf cs session) (ds w)) = inl e ->
  e <> ErrNoSuchEntity ->
  found (fst (load cs session w)) = false /\
  loaded (fst (load cs session w)) = session /\
  mc (snd (load cs session w)) =
    (if enabled (backendTypes cs) MemcacheBackend
     then snd (memcache_Get (keyOf cs session) (mc w)) else mc w) /\
  ds (snd (load cs session w)) = snd (datastore_Get (entityOf cs session) (ds w)) /\
  lastLog (snd (load cs session w)) =
  Some {| level := ErrorLevel; format := "Could not load session: %s";
          arg := ArgError e |}.
Proof.
  intros Hreq Hmc Hd Hget Hne. go_misses; go_vocab;
    unfold load, load_body; go_statements; cbn;
    repeat (go_case; cbn); try congruence; by rewrite last_snoc.
Qed.

End LoadFacts.

(** *** What the cascades leave alone *)

Section FrameFacts.

Context {VM Codec MC DS : Type}.
Context `{!Services MC DS} `{!SecureCookie Codec}.

Implicit Types (cs : CascadeStore (VM := VM) (Codec := Codec)).
Implicit Types (session : Session (VM := VM)).
Implicit Types (w : World (MC := MC) (DS := DS)).

Lemma delete_other_key cs session w k :
  k <> keyOf cs session ->
  ctx (snd (delete cs session w)) !! k = ctx w !! k.
Proof.
  intros Hk. rewrite delete_ctx.
  destruct (enabled _ _); [| done]. by rewrite lookup_delete_ne.
Qed.

Lemma delete_rest cs session w :
  resp (snd (delete cs session w)) = resp w /\
  entropy (snd (delete cs session w)) = entropy w /\
  clock (snd (delete cs session w)) = clock w.
Proof. go_run; done. Qed.

Lemma save_other_key cs session w k :
  k <> keyOf cs session ->
  ctx (snd (save cs session w)) !! k = ctx w !! k.
Proof.
  unfold keyOf. intros Hk. go_unfold. cbn.
  destruct (snd (Serialize _ _)); cbn; [done |].
  go_flags; cbn; repeat (go_case; cbn); rewrite ?lookup_insert_ne by done; done.
Qed.

Lemma save_rest cs session w :
  resp (snd (save cs session w)) = resp w /\
  entropy (snd (save cs session w)) = entropy w /\
  clock (snd (save cs session w)) = clock w.
Proof.
  go_unfold. cbn. destruct (snd (Serialize _ _)); cbn; [done |].
  go_flags; cbn; repeat (go_case; cbn); done.
Qed.

Lemma load_frame cs session w k :
  k <> keyOf cs session ->
  ctx (snd (load cs session w)) !! k = ctx w !! k /\
  resp (snd (load cs session w)) = resp w /\
  entropy (snd (load cs session w)) = entropy w /\
  clock (snd (load cs session w)) = clock w.
Proof.
  intros Hk.
  assert (Hd : forall w1, ctx (snd (delete cs session w1)) !! k = ctx w1 !! k)
    by (intros; by apply delete_other_key).
  assert (Hr : forall w1, resp (snd (delete cs session w1)) = resp w1)
    by (intros; apply delete_rest).
  assert (He : forall w1, entropy (snd (delete cs session w1)) = entropy w1)
    by (intros; apply delete_rest).
  assert (Hc : forall w1, clock (snd (delete cs session w1)) = clock w1)
    by (intros; apply delete_rest).
  unfold keyOf in Hk.
  go_load; rewrite ?Hd, ?Hr, ?He, ?Hc; cbn;
    rewrite ?lookup_delete_ne by done; repeat split; reflexivity.
Qed.

End FrameFacts.

(** *** More on load *)

Section SearchFacts.

Context {VM Codec MC DS : Type}.
Context `{!Services MC DS} `{!SecureCookie Codec}.

Implicit Types (cs : CascadeStore (VM := VM) (Codec := Codec)).
Implicit Types (session : Session (VM := VM)).
Implicit Types (w : World (MC := MC) (DS := DS)).


(** The tiers after a hit in Memcache. *)
Lemma load_memcache_hit_tiers cs session w it b :
  requestMisses cs session w ->
  enabled (backendTypes cs) MemcacheBackend = true ->
  fst (memcache_Get (keyOf cs session) (mc w)) = inr it ->
  Value it = Some b ->
  mc (snd (load cs session w)) = snd (memcache_Get (keyOf cs session) (mc w)) /\
  ds (snd (load cs session w)) = ds w /\
  found (fst (load cs session w)) =
    isNil (snd (Deserialize (serializer cs) (Some b) session)).
Proof.
  intros Hreq Hm Hget Hv. go_misses; go_vocab;
    unfold load, load_body; go_statements; cbn;
    repeat (rewrite ?Hv; cbn; go_case; cbn); rewrite ?Hv; cbn;
    repeat split; go_done;
    match goal with H : snd (Deserialize _ _ _) = _ |- _ => by rewrite H end.
Qed.

(** The tiers after a hit in the Datastore. *)
Lemma load_datastore_hit_tiers cs session w e b :
  requestMisses cs session w ->
  memcacheMisses cs session w ->
  enabled (backendTypes cs) DatastoreBackend = true ->
  fst (datastore_Get (entityOf cs session) (ds w)) = inr e ->
  Before (clock w) (skExpiresAt e) = true ->
  skValue e = Some b ->
  (enabled (backendTypes cs) RequestBackend = true ->
   ctx (snd (load cs session w)) !! keyOf cs session = None) /\
  mc (snd (load cs session w)) =
    (if enabled (backendTypes cs) MemcacheBackend
     then snd (memcache_Get (keyOf cs session) (mc w)) else mc w) /\
  ds (snd (load cs session w)) = snd (datastore_Get (entityOf cs session) (ds w)).
Proof.
  intros Hreq Hmc Hd Hget Hfresh Hv. go_misses; go_vocab;
    unfold load, load_body; go_statements; cbn;
    repeat (rewrite ?Hv; cbn; go_case; cbn); rewrite ?Hv; cbn;
    repeat split; try (intros; rewrite ?lookup_delete_eq); go_done.
Qed.

(** After a cache miss the named result [err] holds
    [memcache.ErrCacheMiss]; a panic raised later leaves it there. *)
Lemma load_datastore_failure_error cs session w e :
  requestMisses cs session w ->
  memcacheMisses cs session w ->
  enabled (backendTypes cs) DatastoreBackend = true ->
  fst (datastore_Get (entityOf cs session) (ds w)) = inl e ->
  e <> ErrNoSuchEntity ->
  loadErr (fst (load cs session w)) =
    if enabled (backendTypes cs) MemcacheBackend then Some ErrCacheMiss else None.
Proof.
  intros Hreq Hmc Hd Hget Hne. go_misses; go_vocab;
    unfold load, load_body; go_statements; cbn;
    repeat (go_case; cbn); go_done.
Qed.

Lemma load_deserialize_failure cs session w e b e1 :
  requestMisses cs session w ->
  memcacheMisses cs session w ->
  enabled (backendTypes cs) DatastoreBackend = true ->
  fst (datastore_Get (entityOf cs session) (ds w)) = inr e ->
  Before (clock w) (skExpiresAt e) = true ->
  skValue e = Some b ->
  snd (Deserialize (serializer cs) (Some b) session) = Some e1 ->
  fst (load cs session w) =
    {| found := false;
       loadErr := if enabled (backendTypes cs) MemcacheBackend
                  then Some ErrCacheMiss else None;
       loaded := fst (Deserialize (serializer cs) (Some b) session) |}.
Proof.
  intros Hreq Hmc Hd Hget Hfresh Hv Hde. go_misses; go_vocab;
    unfold load, load_body; go_statements; cbn;
    repeat (rewrite ?Hv, ?Hde; cbn; go_case; cbn); rewrite ?Hv, ?Hde; go_done.
Qed.

(** A value under the key that is not a [requestItem]: the type
    assertion panics before any other tier is tried. *)
Lemma load_unreadable_item cs session w raw e :
  enabled (backendTypes cs) RequestBackend = true ->
  ctx w !! keyOf cs session = Some raw ->
  assertRequestItem raw = inl e ->
  load cs session w =
  ({| found := false; loadErr := None; loaded := session |},
   logf ErrorLevel "Could not load session: %s" (ArgError e)
     (logf DebugLevel "Loading session: [%s]" (ArgString (ID session)) w)).
Proof.
  unfold keyOf. intros He Hc Ha. unfold load, load_body. go_statements. cbn.
  rewrite He. cbn. rewrite Hc, Ha. reflexivity.
Qed.


(** For a given prefix, the key determines the ID. *)
Lemma keyOf_inj cs session session' :
  keyOf cs session = keyOf cs session' -> ID session = ID session'.
Proof.
  unfold keyOf. induction (keyPrefix cs) as [| a p IH]; cbn; [done |].
  intros [= H]. by apply IH.
Qed.

End SearchFacts.

(** ** The properties of the specification *)

Section Claims.

Context {VM Codec MC DS : Type}.
Context `{!Services MC DS} `{!SecureCookie Codec}.

Implicit Types (cs : CascadeStore (VM := VM) (Codec := Codec)).
Implicit Types (session : Session (VM := VM)).
Implicit Types (w : World (MC := MC) (DS := DS)).

(** C5. For every save call with the Memcache and Datastore tiers enabled
    that reaches its writes, if the write to Memcache fails then the
    Datastore is left as it was (it is not written), and the write to the
    Request tier made before, when that tier is enabled, stays in place. *)
Theorem memcache_failure_spares_datastore cs session w e :
  enabled (backendTypes cs) MemcacheBackend = true ->
  enabled (backendTypes cs) DatastoreBackend = true ->
  storable cs session = true ->
  fst (memcache_Set (memcacheItemOf cs session) (mc w)) = Some e ->
  ds (snd (save cs session w)) = ds w /\
  (enabled (backendTypes cs) RequestBackend = true ->
   ctx (snd (save cs session w)) =
   <[keyOf cs session := PtrRequestItem (requestItemOf cs session (clock w))]> (ctx w)).
Proof.
  intros Hm Hd Hok Hset. split.
  - rewrite save_ds by done. by rewrite Hm, Hd, Hset.
  - intros Hr. rewrite save_ctx by done. by rewrite Hr.
Qed.

(** The expirations [save] writes, in the int64 arithmetic of
    [time.Duration]: the duration is [time.Second * time.Duration(age)]
    with its wrap-around, which is [age] seconds exactly when the product
    fits in an int64.  Memcache is passed that duration; the records of
    the Request tier and of the Datastore expire at the current time plus
    that duration. *)
Theorem save_expiration cs session w :
  storable cs session = true ->
  let age := if decide (MaxAge (sessOptions session) = 0)
             then DefaultMaxAge cs else MaxAge (sessOptions session) in
  let ttl := wrap64 (Second * age) in
  let serialized := fst (Serialize (serializer cs) session) in
  let key := keyPrefix cs +:+ ID session in
  let w' := snd (save cs session w) in
  (- 9223372036 <= age <= 9223372036 -> ttl = age * 1000000000) /\
  (enabled (backendTypes cs) RequestBackend = true ->
   ctx w' !! key =
   Some (PtrRequestItem {| riValue := serialized; riExpiresAt := clock w + ttl |})) /\
  (enabled (backendTypes cs) MemcacheBackend = true ->
   mc w' =
   snd (memcache_Set {| Key := key; Value := serialized; Expiration := ttl |} (mc w))) /\
  (enabled (backendTypes cs) DatastoreBackend = true ->
   enabled (backendTypes cs) MemcacheBackend = false \/
   fst (memcache_Set {| Key := key; Value := serialized; Expiration := ttl |} (mc w)) = None ->
   ds w' =
   snd (datastore_Put (NewKey "Session" key 0)
          {| skValue := serialized; skExpiresAt := clock w + ttl |} (ds w))).
Proof.
  intros Hok age ttl serialized key w'.
  assert (Hage : age = ageOf cs session).
  { unfold age, ageOf. case_decide as Hz.
    - by rewrite Hz.
    - by apply Z.eqb_neq in Hz as ->. }
  assert (Httl : ttl = expiresOf cs session) by (unfold ttl, expiresOf; by rewrite Hage).
  repeat split.
  - intros Hr. unfold ttl, wrap64, Second.
    rewrite Z.mod_small by lia. lia.
  - intros Hr. unfold w'. rewrite save_ctx by done. rewrite Hr, Httl.
    apply lookup_insert_eq.
  - intros Hm. unfold w'. rewrite save_mc by done. by rewrite Hm, Httl.
  - intros Hd Hreach. unfold w'. rewrite save_ds by done. rewrite Hd, Httl.
    destruct Hreach as [-> | Hset]; [done |].
    rewrite Httl in Hset. unfold memcacheItemOf, keyOf, serializedOf.
    fold key serialized. rewrite Hset. by rewrite orb_true_r.
Qed.

(** C7 (amended). For every save call that reaches its writes and whose
    effective max-age, the session's own max-age when that is not zero and
    the store's default max-age otherwise, lies within 9223372036 seconds
    of zero, so that its count of nanoseconds fits an int64: the effective
    TTL is that max-age; Memcache is passed that TTL, as a duration, and
    the records written to the Request tier and to the Datastore expire
    at the current time plus that same TTL. *)
Theorem save_expiration_within_int64 cs session w :
  storable cs session = true ->
  let age := if decide (MaxAge (sessOptions session) = 0)
             then DefaultMaxAge cs else MaxAge (sessOptions session) in
  - 9223372036 <= age <= 9223372036 ->
  let ttl := age * 1000000000 in
  let serialized := fst (Serialize (serializer cs) session) in
  let key := keyPrefix cs +:+ ID session in
  let w' := snd (save cs session w) in
  (enabled (backendTypes cs) RequestBackend = true ->
   ctx w' !! key =
   Some (PtrRequestItem {| riValue := serialized; riExpiresAt := clock w + ttl |})) /\
  (enabled (backendTypes cs) MemcacheBackend = true ->
   mc w' =
   snd (memcache_Set {| Key := key; Value := serialized; Expiration := ttl |} (mc w))) /\
  (enabled (backendTypes cs) DatastoreBackend = true ->
   enabled (backendTypes cs) MemcacheBackend = false \/
   fst (memcache_Set {| Key := key; Value := serialized; Expiration := ttl |} (mc w)) = None ->
   ds w' =
   snd (datastore_Put (NewKey "Session" key 0)
          {| skValue := serialized; skExpiresAt := clock w + ttl |} (ds w))).
Proof.
  intros Hok age Hrange ttl serialized key w'.
  destruct (save_expiration cs session w Hok) as (Hexact & Hreq & Hmc & Hds).
  fold age in Hexact, Hreq, Hmc, Hds. rewrite (Hexact Hrange) in Hreq, Hmc, Hds.
  done.
Qed.

(** C10. For every input the delete cascade returns a nil error: a
    Memcache delete error other than a cache miss and any Datastore delete
    error are logged and not returned.  Hence a [Save] of a session with a
    negative max-age always sets the immediate-expiry cookie (empty value,
    the session's options) after the delete cascade, and returns nil. *)
Theorem delete_never_fails cs session w :
  let key := keyPrefix cs +:+ ID session in
  let w' := snd (delete cs session w) in
  fst (delete cs session w) = None /\
  (forall e,
     enabled (backendTypes cs) MemcacheBackend = true ->
     fst (memcache_Delete key (mc w)) = Some e -> e <> ErrCacheMiss ->
     lastLog w' =
     Some {| level := ErrorLevel; format := "Could not delete session: %s";
             arg := ArgError e |}) /\
  (forall e,
     enabled (backendTypes cs) DatastoreBackend = true ->
     enabled (backendTypes cs) MemcacheBackend = false \/
     passes (fst (memcache_Delete key (mc w))) = true ->
     fst (datastore_Delete (NewKey "Session" key 0) (ds w)) = Some e ->
     lastLog w' =
     Some {| level := WarningLevel;
             format := "Tried and failed to remove old session from Datastore: [%s]";
             arg := ArgString key |}) /\
  (MaxAge (sessOptions session) < 0 ->
   Save cs session w =
   ((None, session),
    SetCookie (NewCookie (sessName session) "" (sessOptions session)) w')).
Proof.
  intros key w'. split; [apply delete_returns_nil |]. split; [| split].
  - intros e Hm He Hne. by apply (delete_logs_memcache_failure cs session w e).
  - intros e Hd Hreach He. by apply (delete_logs_datastore_failure cs session w e).
  - intros Hneg. unfold Save. apply Z.ltb_lt in Hneg as ->.
    by rewrite delete_returns_nil.
Qed.

(** C9 (amended). For a store whose backend bitmask is zero, save writes
    to no tier, and returns no error when the session serializes within
    the size limit; every load of any session, in any world, reports
    found=false with a nil error and leaves the session and the tiers as
    they were. *)
Theorem zero_tiers_never_persist cs session w :
  backendTypes cs = 0 ->
  let w' := snd (save cs session w) in
  (storable cs session = true -> fst (save cs session w) = None) /\
  (ctx w' = ctx w /\ mc w' = mc w /\ ds w' = ds w) /\
  (forall session1 w1,
     let r := load cs session1 w1 in
     found (fst r) = false /\ loadErr (fst r) = None /\ loaded (fst r) = session1 /\
     ctx (snd r) = ctx w1 /\ mc (snd r) = mc w1 /\ ds (snd r) = ds w1).
Proof.
  intros Hz w'. split; [| split].
  - intros [Hs Hb]%storable_inv. go_unfold. rewrite Hz, !enabled_zero. cbn.
    rewrite Hs. cbn. by rewrite Hb.
  - unfold w'. go_unfold. rewrite Hz, !enabled_zero. cbn.
    repeat (go_case; cbn); done.
  - intros session1 w1 r. unfold r.
    rewrite load_no_tier by (rewrite Hz; apply enabled_zero). done.
Qed.

(** C1 (amended). For every session whose serialization succeeds with a
    non-nil value within the size limit, on a store with the Request tier
    off and Memcache or the Datastore on, whose services take the writes
    and return what was written at the next read: saving the session and
    then loading its ID (read from the Datastore before the record
    expires, when Memcache is off) reports found=true and restores a value
    mapping equal to the original one, the serializer being one that
    restores it from the bytes. *)
Theorem save_load_roundtrip cs s s0 w now' b :
  enabled (backendTypes cs) RequestBackend = false ->
  enabled (backendTypes cs) MemcacheBackend ||
  enabled (backendTypes cs) DatastoreBackend = true ->
  Serialize (serializer cs) s = (Some b, None) ->
  tooBig cs (Some b) = false ->
  ID s0 = ID s ->
  snd (Deserialize (serializer cs) (Some b) s0) = None ->
  Values (fst (Deserialize (serializer cs) (Some b) s0)) = Values s ->
  (enabled (backendTypes cs) MemcacheBackend = true ->
   memcacheKeeps (memcacheItemOf cs s) (mc w)) ->
  (enabled (backendTypes cs) DatastoreBackend = true ->
   datastoreKeeps (entityOf cs s) (sessionKindOf cs s (clock w)) (ds w)) ->
  (enabled (backendTypes cs) MemcacheBackend = false ->
   now' < clock w + expiresOf cs s) ->
  let r := fst (load cs s0 (setClock now' (snd (save cs s w)))) in
  fst (save cs s w) = None /\
  found r = true /\ loadErr r = None /\ Values (loaded r) = Values s.
Proof.
  intros Hr Htier Hser Hfit Hid Hde Hval Hmc Hds Hnow r.
  assert (Hok : storable cs s = true).
  { unfold storable, serializedOf. rewrite Hser. cbn [fst snd isNil]. by rewrite Hfit. }
  assert (Hkey : keyOf cs s0 = keyOf cs s) by (unfold keyOf; by rewrite Hid).
  assert (Hser' : serializedOf cs s = Some b) by (unfold serializedOf; by rewrite Hser).
  split; [by rewrite save_result, Hser |].
  assert (Hload : r = {| found := true; loadErr := None;
                         loaded := fst (Deserialize (serializer cs) (Some b) s0) |});
    [| by rewrite Hload].
  unfold r. destruct (enabled (backendTypes cs) MemcacheBackend) eqn:Hm.
  - destruct (Hmc eq_refl) as (Hset & it & Hget & Hv).
    apply load_memcache_hit with (it := it); try done.
    + by left.
    + cbn. rewrite save_mc by done. by rewrite Hm, Hkey.
    + by rewrite Hv.
  - cbn in Htier. destruct (Hds Htier) as (Hput & Hget).
    apply load_datastore_hit with (e := sessionKindOf cs s (clock w)); try done.
    + by left.
    + by left.
    + cbn. rewrite save_ds by done. rewrite Htier, Hm. cbn.
      unfold entityOf in *. by rewrite Hkey.
    + cbn. unfold Before, Add. apply Z.ltb_lt. by apply Hnow.
Qed.

(** C6 (amended). For every load call whose search reaches the
    Datastore and finds a record whose expiresAt is not after the current
    time, load reports found=false with a nil error, leaves the session as
    it was, and runs the delete cascade: the key is removed from the
    Request tier when that tier is on, a delete of the key is issued to
    Memcache when that tier is on, and a delete of the key is issued to the
    Datastore unless the Memcache delete failed with an error other than a
    cache miss. *)
Theorem expired_record_is_deleted cs session w e :
  requestMisses cs session w ->
  memcacheMisses cs session w ->
  enabled (backendTypes cs) DatastoreBackend = true ->
  fst (datastore_Get (entityOf cs session) (ds w)) = inr e ->
  skExpiresAt e <= clock w ->
  let r := load cs session w in
  let key := keyOf cs session in
  let mc1 := if enabled (backendTypes cs) MemcacheBackend
             then snd (memcache_Get key (mc w)) else mc w in
  let ds1 := snd (datastore_Get (entityOf cs session) (ds w)) in
  (found (fst r) = false /\ loadErr (fst r) = None /\ loaded (fst r) = session) /\
  (exists w1, snd r = snd (delete cs session w1) /\ mc w1 = mc1 /\ ds w1 = ds1 /\
              base.delete key (ctx w1) = base.delete key (ctx w)) /\
  ctx (snd r) = (if enabled (backendTypes cs) RequestBackend
                 then base.delete key (ctx w) else ctx w) /\
  mc (snd r) = (if enabled (backendTypes cs) MemcacheBackend
                then snd (memcache_Delete key mc1) else mc w) /\
  ds (snd r) = (if negb (enabled (backendTypes cs) MemcacheBackend) ||
                   passes (fst (memcache_Delete key mc1))
                then snd (datastore_Delete (entityOf cs session) ds1) else ds1).
Proof.
  intros Hreq Hmc Hd Hget Hexp r key mc1 ds1.
  assert (Hold : Before (clock w) (skExpiresAt e) = false)
    by (unfold Before; apply Z.ltb_ge; done).
  assert (Hrun : exists w1,
    r = ({| found := false; loadErr := None; loaded := session |},
         snd (delete cs session w1)) /\ mc w1 = mc1 /\ ds w1 = ds1 /\
    (ctx w1 = ctx w \/ ctx w1 = base.delete key (ctx w)) /\
    (enabled (backendTypes cs) RequestBackend = false -> ctx w1 = ctx w)).
  { unfold r, mc1, ds1, key. go_misses; go_vocab;
      unfold load, load_body; go_statements; cbn;
      repeat (first [rewrite delete_returns_nil | go_case]; cbn);
      try congruence;
      eexists; (split; [reflexivity |]); cbn; repeat split; auto; congruence. }
  destruct Hrun as (w1 & Hr & Hm1 & Hd1 & Hc1 & Hc2). rewrite Hr. cbn [fst snd found loadErr loaded].
  split; [done |]. split.
  { exists w1. repeat split; try done.
    destruct Hc1 as [-> | ->]; [done |]. apply map_eq. intros i.
    rewrite !lookup_delete. by case_decide. }
  rewrite delete_ctx, delete_mc, delete_ds, Hd, Hm1, Hd1. fold key. cbn [andb].
  split; [| split; [| done]].
  - destruct (enabled (backendTypes cs) RequestBackend) eqn:Hrq; [| by apply Hc2].
    destruct Hc1 as [-> | ->]; [done |]. apply map_eq. intros i.
    rewrite !lookup_delete. by case_decide.
  - unfold mc1. by destruct (enabled (backendTypes cs) MemcacheBackend).
Qed.

(** C3 (amended). In every call to save, load or delete in which
    memcache.Set, datastore.Put, memcache.Get, datastore.Get or
    memcache.Delete reports an error other than "not found"/"cache miss",
    the remainder of that cascade is not executed and the error is logged
    by the deferred function; load returns a Memcache read error to its
    caller.  A Datastore delete error is logged as a warning and delete
    returns nil. *)
Theorem backend_failure_aborts_cascade cs session w e :
  e <> ErrCacheMiss -> e <> ErrNoSuchEntity ->
  let failed (msg : string) :=
    Some {| level := ErrorLevel; format := msg; arg := ArgError e |} in
  (* save, memcache.Set *)
  (storable cs session = true ->
   enabled (backendTypes cs) MemcacheBackend = true ->
   fst (memcache_Set (memcacheItemOf cs session) (mc w)) = Some e ->
   ds (snd (save cs session w)) = ds w /\
   lastLog (snd (save cs session w)) = failed "Could not save session: %s") /\
  (* save, datastore.Put *)
  (storable cs session = true ->
   enabled (backendTypes cs) DatastoreBackend = true ->
   enabled (backendTypes cs) MemcacheBackend = false \/
   fst (memcache_Set (memcacheItemOf cs session) (mc w)) = None ->
   fst (datastore_Put (entityOf cs session) (sessionKindOf cs session (clock w)) (ds w))
   = Some e ->
   lastLog (snd (save cs session w)) = failed "Could not save session: %s") /\
  (* load, memcache.Get *)
  (requestMisses cs session w ->
   enabled (backendTypes cs) MemcacheBackend = true ->
   fst (memcache_Get (keyOf cs session) (mc w)) = inl e ->
   fst (load cs session w) =
     {| found := false; loadErr := Some e; loaded := session |} /\
   ds (snd (load cs session w)) = ds w /\
   lastLog (snd (load cs session w)) = failed "Could not load session: %s") /\
  (* load, datastore.Get *)
  (requestMisses cs session w ->
   memcacheMisses cs session w ->
   enabled (backendTypes cs) DatastoreBackend = true ->
   fst (datastore_Get (entityOf cs session) (ds w)) = inl e ->
   found (fst (load cs session w)) = false /\
   loaded (fst (load cs session w)) = session /\
   mc (snd (load cs session w)) =
     (if enabled (backendTypes cs) MemcacheBackend
      then snd (memcache_Get (keyOf cs session) (mc w)) else mc w) /\
   ds (snd (load cs session w)) = snd (datastore_Get (entityOf cs session) (ds w)) /\
   lastLog (snd (load cs session w)) = failed "Could not load session: %s") /\
  (* delete, memcache.Delete *)
  (enabled (backendTypes cs) MemcacheBackend = true ->
   fst (memcache_Delete (keyOf cs session) (mc w)) = Some e ->
   ds (snd (delete cs session w)) = ds w /\
   lastLog (snd (delete cs session w)) = failed "Could not delete session: %s") /\
  (* delete, datastore.Delete *)
  (enabled (backendTypes cs) DatastoreBackend = true ->
   enabled (backendTypes cs) MemcacheBackend = false \/
   passes (fst (memcache_Delete (keyOf cs session) (mc w))) = true ->
   fst (datastore_Delete (entityOf cs session) (ds w)) = Some e ->
   fst (delete cs session w) = None /\
   lastLog (snd (delete cs session w)) =
   Some {| level := WarningLevel;
           format := "Tried and failed to remove old session from Datastore: [%s]";
           arg := ArgString (keyOf cs session) |}).
Proof.
  intros Hmiss Hnone failed. repeat apply conj.
  - intros Hok Hm Hset. split.
    + rewrite save_ds by done. rewrite Hm, Hset. cbn. by rewrite andb_false_r.
    + by apply save_logs_memcache_failure.
  - intros Hok Hd Hreach Hput. by apply save_logs_datastore_failure.
  - intros Hreq Hm Hget.
    destruct (load_memcache_failure cs session w e) as (? & ? & ? & ?); done.
  - intros Hreq Hmc Hd Hget. by apply load_datastore_failure.
  - intros Hm Hdel. split.
    + rewrite delete_ds, Hm, Hdel. cbn. rewrite bool_decide_eq_false_2 by done.
      by rewrite andb_false_r.
    + by apply delete_logs_memcache_failure.
  - intros Hd Hreach Hdel. split; [apply delete_returns_nil |].
    by apply delete_logs_datastore_failure with (e := e).
Qed.

Section NewSessions.

Variable emptyValues : VM.

(** C4 (amended). [New] always returns a session.  With no cookie of the
    name, the session is marked new, its value mapping is empty and the
    error is nil.  With a cookie whose value fails authenticated decoding,
    the session is marked new, its value mapping is empty and the error
    returned is the decoding error.  With a cookie that decodes, the error
    is nil and the session is marked new unless load reports found with a
    nil error; when load does not, the value mapping is empty, for a
    serializer that leaves the mapping alone when it fails. *)
Theorem New_degrades_to_new_session cs r name w :
  let res := New emptyValues cs r name w in
  let s := fst (fst res) in
  let e := snd (fst res) in
  (forall e0, Cookie r name = inl e0 ->
     IsNew s = true /\ Values s = emptyValues /\ e = None /\ snd res = w) /\
  (forall c e0,
     Cookie r name = inr c -> DecodeMulti name c (Codecs cs) = inl e0 ->
     IsNew s = true /\ Values s = emptyValues /\ e = Some e0 /\ snd res = w) /\
  (forall c id,
     Cookie r name = inr c -> DecodeMulti name c (Codecs cs) = inr id ->
     let s1 := setID id (setIsNew true (setOptions (Options cs) (NewSession emptyValues name))) in
     let lr := fst (load cs s1 w) in
     e = None /\
     IsNew s = negb (isNil (loadErr lr) && found lr) /\
     (found lr = false \/ loadErr lr <> None ->
      IsNew s = true /\ (failsClean (serializer cs) -> Values s = emptyValues))).
Proof.
  intros res s e. subst res s e. unfold New. repeat apply conj.
  - intros e0 ->. cbn. done.
  - intros c e0 -> ->. cbn. done.
  - intros c id Hc Hd. rewrite Hc, Hd. cbn [fst snd].
    set (s1 := setID id _). set (lr := fst (load cs s1 w)).
    split; [done |]. split; [done |]. intros Hfail.
    destruct (load_session cs s1 w) as [[Hf Hl] | (b & Hl & Hf & He)];
      fold lr in Hf, Hl.
    + rewrite Hf, Hl, andb_false_r. done.
    + assert (Hnot : found lr = false).
      { destruct Hfail as [? | Hne]; [done |].
        fold lr in He. destruct (found lr); [by specialize (He eq_refl) | done]. }
      rewrite Hnot, andb_false_r. split; [done |]. intros Hclean.
      change (Values (loaded lr) = emptyValues).
      rewrite Hl, Hclean; [done |]. rewrite Hnot in Hf.
      by destruct (snd (Deserialize (serializer cs) b s1)).
Qed.

End NewSessions.

End Claims.

(** * The cascades on concrete inputs *)

Import Mem.

(** C1, counterexample. With no tier enabled, a session well within the
    size limit is saved without error and is not found by the load that
    follows. *)
Lemma roundtrip_fails_without_tiers :
  tooBig (store 0) (serializedOf (store 0) alice) = false /\
  fst (save (store 0) alice world0) = None /\
  found (fst (load (store 0) (blank "abc") (snd (save (store 0) alice world0))))
  = false.
Proof. vm_compute. done. Qed.

(** An instance of the round trip of C1, through Memcache and the
    Datastore. *)
Lemma save_load_roundtrip_witness :
  let cs := store DistributedBackends in
  let r := fst (load cs (blank "abc") (setClock (clock world0) (snd (save cs alice world0)))) in
  fst (save cs alice world0) = None /\
  found r = true /\ loadErr r = None /\ Values (loaded r) = Values alice.
Proof.
  apply (save_load_roundtrip (store DistributedBackends) alice (blank "abc") world0
           (clock world0) [Byte.x61; Byte.x6c]).
  - reflexivity.
  - reflexivity.
  - reflexivity.
  - reflexivity.
  - reflexivity.
  - reflexivity.
  - reflexivity.
  - intros _. split; [reflexivity |]. eexists. split; reflexivity.
  - intros _. split; reflexivity.
  - intros H. discriminate H.
Defined.

(** C2. A session of two bytes saved in a store that takes one byte: the
    size check fires, no tier is written, and [save] returns nil where the
    specification asks for [ValueTooBigError]. *)
Theorem oversize_save_returns_nil :
  let r := save smallStore alice world0 in
  maxLength smallStore = 1 /\ len (serializedOf smallStore alice) = 2 /\
  fst r = None /\ fst r <> Some ValueTooBigError /\
  ctx (snd r) = ctx world0 /\ mc (snd r) = mc world0 /\ ds (snd r) = ds world0 /\
  lastLog (snd r) =
  Some {| level := ErrorLevel; format := "Could not save session: %s";
          arg := ArgError ValueTooBigError |}.
Proof. vm_compute. repeat split; done. Qed.

(** C3, counterexample. The Datastore reports an error on delete, and
    [delete] returns nil. *)
Lemma datastore_delete_error_not_returned :
  let cs := store DatastoreBackend in
  let w := setDs (deletesFail (ds world0)) world0 in
  fst (datastore_Delete (entityOf cs alice) (ds w)) = Some serverError /\
  fst (delete cs alice w) = None.
Proof. vm_compute. done. Qed.

(** An instance of C3 as amended: a Memcache that is down for writes,
    reads and deletes. *)
Lemma backend_failure_aborts_cascade_witness :
  let cs := store AllBackends in
  let w := setMc (deletesFail (readsFail (writesFail (mc world0)))) world0 in
  (ds (snd (save cs alice w)) = ds w /\
   lastLog (snd (save cs alice w)) =
   Some {| level := ErrorLevel; format := "Could not save session: %s";
           arg := ArgError serverError |}) /\
  fst (load cs alice w) =
    {| found := false; loadErr := Some serverError; loaded := alice |} /\
  ds (snd (delete cs alice w)) = ds w.
Proof.
  intros cs w.
  destruct (backend_failure_aborts_cascade cs alice w serverError)
    as (Hset & _ & Hget & _ & Hdel & _); [done | done |].
  split; [| split].
  - apply Hset; reflexivity.
  - apply Hget; [| reflexivity | reflexivity]. right. left. reflexivity.
  - apply Hdel; reflexivity.
Defined.

(** C4, counterexample. A cookie that fails authenticated decoding: [New]
    returns the decoding error. *)
Lemma corrupt_cookie_returns_error :
  Cookie corruptCookie "sid" = inr "garbage" /\
  snd (fst (New [] (store AllBackends) corruptCookie "sid" world0)) =
  Some (OtherError "securecookie: the value is not valid").
Proof. vm_compute. done. Qed.

(** An instance of C4 as amended: the corrupt cookie. *)
Lemma New_degrades_to_new_session_witness :
  let res := New [] (store AllBackends) corruptCookie "sid" world0 in
  IsNew (fst (fst res)) = true /\ Values (fst (fst res)) = [] /\
  snd (fst res) = Some (OtherError "securecookie: the value is not valid") /\
  snd res = world0.
Proof.
  intros res.
  apply (proj1 (proj2 (New_degrades_to_new_session [] (store AllBackends)
                         corruptCookie "sid" world0)) "garbage");
    reflexivity.
Defined.

(** An instance of C5. Memcache refuses the write: the Datastore is as before, the
    Request tier holds the item. *)
Lemma memcache_failure_spares_datastore_witness :
  let cs := store AllBackends in
  let w := setMc (writesFail (mc world0)) world0 in
  ds (snd (save cs alice w)) = ds w /\
  (enabled (backendTypes cs) RequestBackend = true ->
   ctx (snd (save cs alice w)) =
   <[keyOf cs alice := PtrRequestItem (requestItemOf cs alice (clock w))]> (ctx w)).
Proof.
  apply (memcache_failure_spares_datastore (store AllBackends) alice
           (setMc (writesFail (mc world0)) world0) serverError); reflexivity.
Defined.

(** C6, counterexample. Memcache and the Datastore are on, Memcache
    misses on read and fails on delete, the Datastore holds an expired
    record: [load] reports not found and the record is still in the
    Datastore. *)
Lemma expired_record_survives_memcache_failure :
  let cs := store DistributedBackends in
  let w := setMc (deletesFail (mc staleWorld)) staleWorld in
  let r := load cs (blank "abc") w in
  enabled (backendTypes cs) DatastoreBackend = true /\
  fst (datastore_Get (entityOf cs (blank "abc")) (ds w)) = inr staleRecord /\
  skExpiresAt staleRecord <= clock w /\
  found (fst r) = false /\
  held (ds (snd r)) !! ("Session", "session.abc") = Some staleRecord.
Proof. vm_compute. repeat split; try done. Qed.

(** An instance of C6 as amended: with healthy services the expired
    record is removed. *)
Lemma expired_record_is_deleted_witness :
  let cs := store AllBackends in
  let r := load cs (blank "abc") staleWorld in
  found (fst r) = false /\ loadErr (fst r) = None /\ loaded (fst r) = blank "abc" /\
  held (ds (snd r)) !! ("Session", "session.abc") = None.
Proof.
  intros cs r.
  destruct (expired_record_is_deleted cs (blank "abc") staleWorld staleRecord)
    as ((Hf & He & Hl) & _ & _ & _ & Hds).
  - right. left. reflexivity.
  - right. reflexivity.
  - reflexivity.
  - reflexivity.
  - vm_compute. discriminate.
  - split; [exact Hf | split; [exact He | split; [exact Hl |]]].
    unfold r. rewrite Hds. reflexivity.
Defined.

(** C7, counterexample. A session whose max-age is 9223372037 seconds: the
    product with [time.Second] wraps to a negative duration, the record
    written to the Datastore expires long before the current time and not
    at the current time plus the max-age, and the load that follows at the
    same time does not find the session. *)
Lemma huge_max_age_wraps :
  let cs := store DatastoreBackend in
  let w' := snd (save cs longLived world0) in
  let written := {| skValue := Some [Byte.x61; Byte.x6c];
                    skExpiresAt := clock world0 - 9223372036709551616 |} in
  storable cs longLived = true /\
  MaxAge (sessOptions longLived) = 9223372037 /\
  held (ds w') !! ("Session", "session.abc") = Some written /\
  skExpiresAt written <> clock world0 + 9223372037 * Second /\
  skExpiresAt written < clock world0 /\
  found (fst (load cs (blank "abc") w')) = false.
Proof. vm_compute. repeat split; done. Qed.

(** An instance of C7 as amended. [alice] has max-age 0: the TTL is the
    default of the store, 1200 seconds. *)
Lemma save_expiration_within_int64_witness :
  let cs := store AllBackends in
  let w' := snd (save cs alice world0) in
  ctx w' !! "session.abc" =
    Some (PtrRequestItem {| riValue := Some [Byte.x61; Byte.x6c];
                            riExpiresAt := clock world0 + 1200 * Second |}) /\
  held (mc w') !! "session.abc" =
    Some {| Key := "session.abc"; Value := Some [Byte.x61; Byte.x6c];
            Expiration := 1200 * Second |} /\
  held (ds w') !! ("Session", "session.abc") =
    Some {| skValue := Some [Byte.x61; Byte.x6c];
            skExpiresAt := clock world0 + 1200 * Second |}.
Proof.
  intros cs w'.
  destruct (save_expiration_within_int64 cs alice world0 eq_refl) as (Hreq & Hmc & Hds).
  - vm_compute. split; discriminate.
  - split; [| split].
    + exact (Hreq eq_refl).
    + unfold w'. rewrite (Hmc eq_refl). reflexivity.
    + unfold w'. rewrite (Hds eq_refl (or_intror eq_refl)). reflexivity.
Defined.

(** C8. The Request tier alone: [save] leaves a [*requestItem] that has
    not expired, and the [load] that follows panics on its type assertion,
    reports not found and leaves the item in place. *)
Theorem request_tier_never_hits :
  let cs := store RequestBackend in
  let w1 := snd (save cs alice world0) in
  let r := load cs (blank "abc") w1 in
  let item := {| riValue := Some [Byte.x61; Byte.x6c];
                 riExpiresAt := clock world0 + 1200 * Second |} in
  ctx w1 !! keyOf cs (blank "abc") = Some (PtrRequestItem item) /\
  Before (clock w1) (riExpiresAt item) = true /\
  fst r = {| found := false; loadErr := None; loaded := blank "abc" |} /\
  ctx (snd r) = ctx w1 /\
  lastLog (snd r) =
  Some {| level := ErrorLevel; format := "Could not load session: %s";
          arg := ArgError TypeAssertionError |}.
Proof. vm_compute. repeat split; done. Qed.

(** C9, counterexample. No tier, and a serializer that cannot encode:
    [save] returns the error of the serializer. *)
Lemma zero_tier_save_returns_serializer_error :
  backendTypes brokenStore = 0 /\
  fst (save brokenStore alice world0) = Some (OtherError "gob: type not registered").
Proof. vm_compute. done. Qed.

(** An instance of C9 as amended: the plain serializer and no tier. *)
Lemma zero_tiers_never_persist_witness :
  let cs := store 0 in
  let w' := snd (save cs alice world0) in
  fst (save cs alice world0) = None /\
  (ctx w' = ctx world0 /\ mc w' = mc world0 /\ ds w' = ds world0) /\
  found (fst (load cs (blank "abc") w')) = false.
Proof.
  intros cs w'.
  destruct (zero_tiers_never_persist cs alice world0 eq_refl) as (Hsave & Htiers & Hload).
  split; [exact (Hsave eq_refl) |]. split; [exact Htiers |].
  exact (proj1 (Hload (blank "abc") w')).
Defined.

(** An instance of C10. Both services refuse deletes: the logout still sets the cookie
    and returns nil. *)
Lemma delete_never_fails_witness :
  let cs := store AllBackends in
  let w := setDs (deletesFail (ds world0)) (setMc (deletesFail (mc world0)) world0) in
  fst (delete cs loggedOut w) = None /\
  fst (fst (Save cs loggedOut w)) = None /\
  resp (snd (Save cs loggedOut w)) =
    [NewCookie "sid" "" (sessOptions loggedOut)].
Proof.
  intros cs w.
  destruct (delete_never_fails cs loggedOut w) as (Hnil & _ & _ & Hsave).
  split; [exact Hnil |]. rewrite Hsave by reflexivity. split; reflexivity.
Defined.

(** * Further properties of the package *)

Section Further.

Context {VM Codec MC DS : Type}.
Context `{!Services MC DS} `{!SecureCookie Codec}.

Implicit Types (cs : CascadeStore (VM := VM) (Codec := Codec)).
Implicit Types (session : Session (VM := VM)).
Implicit Types (w : World (MC := MC) (DS := DS)).

(** X1. Whatever the services do, the error [save] returns is the error
    the serializer returned: a failed write to Memcache or to the
    Datastore, and a session that is too big, never reach the caller of
    [save]. *)
Theorem save_reports_only_serializer_errors cs session w :
  fst (save cs session w) = snd (Serialize (serializer cs) session).
Proof. apply save_result. Qed.

(** X2. [Save] of a session whose max-age is not negative: an empty ID is
    replaced by the next draw of the random source and any other ID is
    kept; the error returned is the error of the serializer, else the
    error of the codec, else nil, whatever the services do; and the
    response gets the cookie of the session, with the encoded ID and the
    session's options, exactly when the error is nil. *)
Theorem Save_outcome cs session w :
  0 <= MaxAge (sessOptions session) ->
  let s1 := if decide (ID session = "")
            then setID (GenerateSessionID (entropy w)) session else session in
  let r := Save cs session w in
  let enc := EncodeMulti (sessName s1) (ID s1) (Codecs cs) in
  snd (fst r) = s1 /\
  entropy (snd r) = (if decide (ID session = "") then S (entropy w) else entropy w) /\
  fst (fst r) =
    match snd (Serialize (serializer cs) s1), enc with
    | Some e, _ => Some e
    | None, inl e => Some e
    | None, inr _ => None
    end /\
  resp (snd r) =
    resp w ++ match snd (Serialize (serializer cs) s1), enc with
              | None, inr v => [NewCookie (sessName s1) v (sessOptions s1)]
              | _, _ => []
              end.
Proof.
  intros Hage s1 r enc. subst r. unfold Save.
  apply Z.ltb_ge in Hage. rewrite Hage.
  set (sw := if decide (ID session = "") then _ else _).
  assert (Hs : fst sw = s1) by (unfold sw, s1; by destruct (decide _)).
  assert (He : entropy (snd sw) =
               if decide (ID session = "") then S (entropy w) else entropy w)
    by (unfold sw; by destruct (decide _)).
  assert (Hr : resp (snd sw) = resp w) by (unfold sw; by destruct (decide _)).
  cbv zeta. rewrite Hs.
  destruct (save_rest cs s1 (snd sw)) as (Hresp & Hent & _).
  rewrite save_result. fold enc.
  destruct (snd (Serialize (serializer cs) s1)); cbn.
  - rewrite Hresp, Hent, Hr, He, app_nil_r. done.
  - destruct enc; cbn; rewrite ?Hresp, ?Hent, ?Hr, ?He, ?app_nil_r; done.
Qed.


(** X5. [load] reports found only with a nil error and only after a
    [Deserialize] that returned no error, whose session it leaves; when it
    reports not found, the session is the one it was given or the one a
    failed [Deserialize] left. *)
Theorem load_found_characterisation cs session w :
  let r := fst (load cs session w) in
  (found r = true ->
   loadErr r = None /\
   exists b, snd (Deserialize (serializer cs) b session) = None /\
             loaded r = fst (Deserialize (serializer cs) b session)) /\
  (found r = false ->
   loaded r = session \/
   exists b, snd (Deserialize (serializer cs) b session) <> None /\
             loaded r = fst (Deserialize (serializer cs) b session)).
Proof.
  intros r. destruct (load_session cs session w) as [[Hf Hl] | (b & Hl & Hf & He)];
    fold r in Hf, Hl.
  - split; [congruence | by left].
  - fold r in He. split.
    + intros Ht. split; [by apply He |]. exists b. split; [| done].
      rewrite Ht in Hf. by destruct (snd (Deserialize _ _ _)).
    + intros Hn. right. exists b. split; [| done].
      rewrite Hn in Hf. by destruct (snd (Deserialize _ _ _)).
Qed.

(** X6. A value found in Memcache ends the search: it is deserialized
    whatever the clock says, and the Datastore is not read. *)
Theorem memcache_hit_stops_search cs session w it b :
  requestMisses cs session w ->
  enabled (backendTypes cs) MemcacheBackend = true ->
  fst (memcache_Get (keyOf cs session) (mc w)) = inr it ->
  Value it = Some b ->
  snd (Deserialize (serializer cs) (Some b) session) = None ->
  fst (load cs session w) =
    {| found := true; loadErr := None;
       loaded := fst (Deserialize (serializer cs) (Some b) session) |} /\
  mc (snd (load cs session w)) = snd (memcache_Get (keyOf cs session) (mc w)) /\
  ds (snd (load cs session w)) = ds w.
Proof.
  intros Hreq Hm Hget Hv Hde. split.
  - by apply load_memcache_hit with (it := it).
  - by destruct (load_memcache_hit_tiers cs session w it b) as (? & ? & _).
Qed.

(** X7. A value found in the Datastore is not written back to the tiers
    searched before it: the Request tier, when on, still has nothing under
    the key, and Memcache has been read and not written. *)
Theorem datastore_hit_no_backfill cs session w e b :
  requestMisses cs session w ->
  memcacheMisses cs session w ->
  enabled (backendTypes cs) DatastoreBackend = true ->
  fst (datastore_Get (entityOf cs session) (ds w)) = inr e ->
  clock w < skExpiresAt e ->
  skValue e = Some b ->
  snd (Deserialize (serializer cs) (Some b) session) = None ->
  fst (load cs session w) =
    {| found := true; loadErr := None;
       loaded := fst (Deserialize (serializer cs) (Some b) session) |} /\
  (enabled (backendTypes cs) RequestBackend = true ->
   ctx (snd (load cs session w)) !! keyOf cs session = None) /\
  mc (snd (load cs session w)) =
    (if enabled (backendTypes cs) MemcacheBackend
     then snd (memcache_Get (keyOf cs session) (mc w)) else mc w) /\
  ds (snd (load cs session w)) = snd (datastore_Get (entityOf cs session) (ds w)).
Proof.
  intros Hreq Hmc Hd Hget Hfresh Hv Hde.
  assert (Hb : Before (clock w) (skExpiresAt e) = true) by by apply Z.ltb_lt.
  split.
  - by apply load_datastore_hit with (e := e).
  - by apply load_datastore_hit_tiers with (e := e) (b := b).
Qed.

(** X8. After a cache miss in Memcache, a [load] that then fails in the
    Datastore, or in [Deserialize], returns [memcache.ErrCacheMiss] as its
    error and not the error that stopped it. *)
Theorem stale_cache_miss_error cs session w :
  requestMisses cs session w ->
  enabled (backendTypes cs) MemcacheBackend = true ->
  fst (memcache_Get (keyOf cs session) (mc w)) = inl ErrCacheMiss ->
  enabled (backendTypes cs) DatastoreBackend = true ->
  (forall e,
     fst (datastore_Get (entityOf cs session) (ds w)) = inl e ->
     e <> ErrNoSuchEntity ->
     found (fst (load cs session w)) = false /\
     loadErr (fst (load cs session w)) = Some ErrCacheMiss) /\
  (forall e b e1,
     fst (datastore_Get (entityOf cs session) (ds w)) = inr e ->
     clock w < skExpiresAt e ->
     skValue e = Some b ->
     snd (Deserialize (serializer cs) (Some b) session) = Some e1 ->
     found (fst (load cs session w)) = false /\
     loadErr (fst (load cs session w)) = Some ErrCacheMiss).
Proof.
  intros Hreq Hm Hmiss Hd. split.
  - intros e Hget Hne. split.
    + destruct (load_datastore_failure cs session w e) as (Hf & _); try done.
      by right.
    + rewrite (load_datastore_failure_error cs session w e); try done.
      * by rewrite Hm.
      * by right.
  - intros e b e1 Hget Hfresh Hv Hde.
    rewrite (load_deserialize_failure cs session w e b e1); try done.
    + by rewrite Hm.
    + by right.
    + by apply Z.ltb_lt.
Qed.

(** X9. The cascades keep to their key: [save], [load] and [delete]
    leave every other key of the request context as it was, and never
    touch the response, the random source or the clock. *)
Theorem cascades_keep_to_their_key cs session w k :
  k <> keyOf cs session ->
  let same (w' : World (MC := MC) (DS := DS)) :=
    ctx w' !! k = ctx w !! k /\ resp w' = resp w /\
    entropy w' = entropy w /\ clock w' = clock w in
  same (snd (save cs session w)) /\
  same (snd (load cs session w)) /\
  same (snd (delete cs session w)).
Proof.
  intros Hk same. unfold same.
  destruct (save_rest cs session w) as (? & ? & ?).
  destruct (load_frame cs session w k Hk) as (? & ? & ? & ?).
  destruct (delete_rest cs session w) as (? & ? & ?).
  pose proof (save_other_key cs session w k Hk).
  pose proof (delete_other_key cs session w k Hk).
  done.
Qed.

(** X10. With the Request tier on, a value under the key that is not a
    [requestItem], such as the [*requestItem] that [save] stores, makes
    [load] report not found with a nil error without reading Memcache or
    the Datastore, whatever they hold. *)
Theorem unreadable_request_value_hides_tiers cs session w raw e :
  enabled (backendTypes cs) RequestBackend = true ->
  ctx w !! keyOf cs session = Some raw ->
  assertRequestItem raw = inl e ->
  fst (load cs session w) = {| found := false; loadErr := None; loaded := session |} /\
  ctx (snd (load cs session w)) = ctx w /\
  mc (snd (load cs session w)) = mc w /\
  ds (snd (load cs session w)) = ds w.
Proof.
  intros He Hc Ha. by rewrite (load_unreadable_item cs session w raw e).
Qed.

End Further.

Section FurtherFacade.

Context {VM Codec MC DS : Type}.
Context `{!Services MC DS} `{!SecureCookie Codec}.

Implicit Types (cs : CascadeStore (VM := VM) (Codec := Codec)).
Implicit Types (session : Session (VM := VM)).
Implicit Types (w : World (MC := MC) (DS := DS)).

Variable emptyValues : VM.


(** X14. Sessions with different IDs do not interfere in the request
    context: what [save], [load] and [delete] of one session do leaves
    the entry of the other session as it was. *)
Theorem sessions_do_not_interfere cs session other w :
  ID other <> ID session ->
  ctx (snd (save cs session w)) !! keyOf cs other = ctx w !! keyOf cs other /\
  ctx (snd (load cs session w)) !! keyOf cs other = ctx w !! keyOf cs other /\
  ctx (snd (delete cs session w)) !! keyOf cs other = ctx w !! keyOf cs other.
Proof.
  intros Hid.
  assert (Hk : keyOf cs other <> keyOf cs session)
    by (intros Heq; by apply keyOf_inj in Heq).
  split; [by apply save_other_key |].
  split; [by apply load_frame | by apply delete_other_key].
Qed.

End FurtherFacade.

Section FurtherConfiguration.

Context {VM Codec : Type}.
Context `{!SecureCookie Codec} `{!CodecMaxAge Codec}.

Implicit Types (cs : CascadeStore (VM := VM) (Codec := Codec)).

Lemma configure_keeps (ops : list (setting (VM := VM))) cs :
  0 <= maxLength cs ->
  backendTypes (configure ops cs) = backendTypes cs /\
  0 <= maxLength (configure ops cs) /\
  Codecs (configure ops cs) = Codecs cs /\
  Options (configure ops cs) = Options cs /\
  DefaultMaxAge (configure ops cs) = DefaultMaxAge cs.
Proof.
  revert cs. induction ops as [| o ops IH]; intros cs Hlen; [done |].
  cbn. destruct (IH (applySetting o cs)) as (Hb & Hl & Hc & Ho & Hd).
  - destruct o; cbn; try done. unfold SetMaxLength.
    destruct (l >=? 0) eqn:Hge; cbn; [lia | done].
  - unfold configure in *. rewrite Hb, Hc, Ho, Hd. split; [| split; [done |]];
      destruct o; cbn; try done; unfold SetMaxLength; by destruct (_ >=? _).
Qed.

(** X11. However a store built by [NewCascadeStore] is then configured
    with [SetMaxLength], [SetKeyPrefix] and [SetSerializer], its backend
    bitmask stays the one it was built with, its codecs, default options
    and default max-age stay the ones of the constructor, and its maximum
    length is never negative. *)
Theorem configuration_invariant (ser : SessionSerializer (VM := VM)) (b : Z)
    (keyPairs : list bytes) (ops : list (setting (VM := VM))) :
  let cs := configure ops (NewCascadeStore ser b keyPairs) in
  backendTypes cs = b /\
  0 <= maxLength cs /\
  Codecs cs = CodecsFromPairs keyPairs /\
  Options cs = {| Path := "/"; Domain := ""; MaxAge := 2592000;
                  Secure := false; HttpOnly := false |} /\
  DefaultMaxAge cs = 1200.
Proof.
  intros cs. unfold cs.
  destruct (configure_keeps ops (NewCascadeStore ser b keyPairs))
    as (-> & ? & -> & -> & ->); [cbn; unfold MaxValueLength; lia | done].
Qed.

Lemma land_pow2 (b k : Z) :
  0 <= k -> Z.land b (2 ^ k) = if Z.testbit b k then 2 ^ k else 0.
Proof.
  intros Hk. apply Z.bits_inj'. intros n Hn.
  rewrite Z.land_spec, Z.pow2_bits_eqb by done.
  destruct (Z.eqb_spec k n) as [-> | Hne].
  - destruct (Z.testbit b n) eqn:Hb; cbn.
    + by rewrite Z.pow2_bits_true.
    + by rewrite Z.bits_0.
  - rewrite andb_false_r. destruct (Z.testbit b k).
    + by rewrite Z.pow2_bits_false.
    + by rewrite Z.bits_0.
Qed.

(** X12. A tier is on exactly when its bit is set in the bitmask: bit 0
    for the Request tier, bit 1 for Memcache, bit 2 for the Datastore.
    The other bits, the sign included, do not matter. *)
Theorem enabled_is_testbit (b : Z) :
  enabled b RequestBackend = Z.testbit b 0 /\
  enabled b MemcacheBackend = Z.testbit b 1 /\
  enabled b DatastoreBackend = Z.testbit b 2.
Proof.
  unfold enabled, RequestBackend, MemcacheBackend, DatastoreBackend.
  rewrite !Z.shiftl_1_l, !land_pow2 by lia.
  repeat split; by destruct (Z.testbit b _).
Qed.

Lemma setCodecsMaxAge_length v (l : list Codec) :
  length (snd (setCodecsMaxAge v l)) = length l.
Proof.
  induction l as [| c l IH]; [done |]. cbn.
  destruct (codecMaxAge v c); cbn; [by rewrite IH | done].
Qed.

Lemma setCodecsMaxAge_all v (l : list Codec) :
  Forall (fun c => is_Some (codecMaxAge v c)) l ->
  fst (setCodecsMaxAge v l) = Done tt /\
  Forall2 (fun c c' => codecMaxAge v c = Some c') l (snd (setCodecsMaxAge v l)).
Proof.
  induction 1 as [| c l [c' Hc] _ [IH1 IH2]]; [by split |].
  cbn. rewrite Hc. cbn. split; [done |]. by constructor.
Qed.

Lemma setCodecsMaxAge_stops v (pre post : list Codec) c :
  Forall (fun c => is_Some (codecMaxAge v c)) pre ->
  codecMaxAge v c = None ->
  fst (setCodecsMaxAge v (pre ++ c :: post)) =
    Panicked (OtherError "Can't change MaxAge on codec") /\
  exists pre',
    snd (setCodecsMaxAge v (pre ++ c :: post)) = pre' ++ c :: post /\
    Forall2 (fun c c' => codecMaxAge v c = Some c') pre pre'.
Proof.
  intros Hpre Hc. induction Hpre as [| a pre [a' Ha] _ (IH1 & pre' & IH2 & IH3)].
  - cbn. rewrite Hc. split; [done |]. by exists [].
  - cbn. rewrite Ha. cbn. split; [done |]. exists (a' :: pre'). split.
    + by rewrite IH2.
    + by constructor.
Qed.

(** X13. [SetMaxAge] sets the max-age of the default options before it
    looks at the codecs, and changes nothing else but the codecs, whose
    number it keeps.  When every codec is a [securecookie.SecureCookie] it
    returns with the max-age of each one set.  At the first codec that is
    not, it panics: the codecs before that one have their max-age set,
    that one and those after it are as they were, and the max-age of the
    default options stays changed. *)
Theorem SetMaxAge_outcome v cs :
  let r := SetMaxAge v cs in
  (Options (snd r) =
     {| Path := Path (Options cs); Domain := Domain (Options cs); MaxAge := v;
        Secure := Secure (Options cs); HttpOnly := HttpOnly (Options cs) |} /\
   backendTypes (snd r) = backendTypes cs /\ maxLength (snd r) = maxLength cs /\
   keyPrefix (snd r) = keyPrefix cs /\ DefaultMaxAge (snd r) = DefaultMaxAge cs /\
   length (Codecs (snd r)) = length (Codecs cs)) /\
  (Forall (fun c => is_Some (codecMaxAge v c)) (Codecs cs) ->
   fst r = Done tt /\
   Forall2 (fun c c' => codecMaxAge v c = Some c') (Codecs cs) (Codecs (snd r))) /\
  (forall pre c post,
     Codecs cs = pre ++ c :: post ->
     Forall (fun c => is_Some (codecMaxAge v c)) pre ->
     codecMaxAge v c = None ->
     (exists e, fst r = Panicked e) /\
     exists pre',
       Codecs (snd r) = pre' ++ c :: post /\
       Forall2 (fun c c' => codecMaxAge v c = Some c') pre pre').
Proof.
  intros r. unfold r, SetMaxAge. cbn [fst snd Options backendTypes maxLength
    keyPrefix DefaultMaxAge Codecs]. split; [| split].
  - repeat split. apply setCodecsMaxAge_length.
  - apply setCodecsMaxAge_all.
  - intros pre c post -> Hpre Hc.
    destruct (setCodecsMaxAge_stops v pre post c Hpre Hc) as (Hp & Hrest).
    split; [by eexists | done].
Qed.

End FurtherConfiguration.

(** ** Instances of the further properties *)

(** An instance of X2: a session without an ID gets the first draw of the
    random source, although Memcache and the Datastore refuse the
    writes. *)
Lemma Save_outcome_witness :
  let cs := store AllBackends in
  let w := setDs (writesFail (ds world0)) (setMc (writesFail (mc world0)) world0) in
  let r := Save cs unsaved w in
  ID (snd (fst r)) = "SID0" /\ entropy (snd r) = 1%nat /\ fst (fst r) = None /\
  resp (snd r) = [NewCookie "sid" "signed:SID0" zeroOptions].
Proof.
  intros cs w r.
  destruct (Save_outcome cs unsaved w) as (Hs & He & Hr & Hc); [done |].
  fold r in Hs, He, Hr, Hc. rewrite Hs, He, Hr, Hc. repeat split.
Defined.



(** An instance of X6. *)
Lemma memcache_hit_stops_search_witness :
  let cs := store DistributedBackends in
  let w := snd (save cs alice world0) in
  found (fst (load cs (blank "abc") w)) = true /\
  ds (snd (load cs (blank "abc") w)) = ds w.
Proof.
  intros cs w.
  destruct (memcache_hit_stops_search cs (blank "abc") w
              (memcacheItemOf cs alice) [Byte.x61; Byte.x6c]) as (Hf & _ & Hd);
    try reflexivity.
  - left. reflexivity.
  - split; [by rewrite Hf | exact Hd].
Defined.

(** An instance of X7: all tiers on, the record in the Datastore only. *)
Lemma datastore_hit_no_backfill_witness :
  let cs := store AllBackends in
  let r := load cs (blank "abc") freshWorld in
  found (fst r) = true /\
  ctx (snd r) !! "session.abc" = None /\
  held (mc (snd r)) !! "session.abc" = None.
Proof.
  intros cs r.
  destruct (datastore_hit_no_backfill cs (blank "abc") freshWorld freshRecord
              [Byte.x61; Byte.x6c]) as (Hf & Hc & Hm & _); try reflexivity.
  - right. left. reflexivity.
  - right. reflexivity.
  - split; [unfold r; by rewrite Hf |]. split; [exact (Hc eq_refl) |].
    unfold r. rewrite Hm. reflexivity.
Defined.

(** An instance of X8: the Datastore is down for reads. *)
Lemma stale_cache_miss_error_witness :
  let cs := store DistributedBackends in
  let w := setDs (readsFail (ds world0)) world0 in
  fst (datastore_Get (entityOf cs alice) (ds w)) = inl serverError /\
  loadErr (fst (load cs alice w)) = Some ErrCacheMiss.
Proof.
  intros cs w. split; [reflexivity |].
  destruct (stale_cache_miss_error cs alice w) as (Herr & _);
    [left; reflexivity | reflexivity | reflexivity | reflexivity |].
  apply (Herr serverError); [reflexivity | discriminate].
Defined.

(** An instance of X9. *)
Lemma cascades_keep_to_their_key_witness :
  let cs := store AllBackends in
  ctx (snd (save cs alice sharedWorld)) !! "other" = Some OtherValue /\
  ctx (snd (load cs alice sharedWorld)) !! "other" = Some OtherValue /\
  ctx (snd (delete cs alice sharedWorld)) !! "other" = Some OtherValue.
Proof.
  intros cs.
  destruct (cascades_keep_to_their_key cs alice sharedWorld "other")
    as ((Hs & _) & (Hl & _) & (Hd & _)); [discriminate |].
  rewrite Hs, Hl, Hd. repeat split.
Defined.

(** An instance of X10: all tiers on; the session is in Memcache and in
    the Datastore, and the load of the same request does not find it. *)
Lemma unreadable_request_value_hides_tiers_witness :
  let cs := store AllBackends in
  let w := snd (save cs alice world0) in
  held (mc w) !! "session.abc" = Some (memcacheItemOf cs alice) /\
  fst (load cs (blank "abc") w) =
    {| found := false; loadErr := None; loaded := blank "abc" |}.
Proof.
  intros cs w. split; [reflexivity |].
  apply (unreadable_request_value_hides_tiers cs (blank "abc") w
           (PtrRequestItem (requestItemOf cs alice (clock world0))) TypeAssertionError);
    reflexivity.
Defined.

(** An instance of X13: three codecs, the second of another type. *)
Lemma SetMaxAge_outcome_witness :
  let r := SetMaxAge 60 mixedStore in
  MaxAge (Options (snd r)) = 60 /\
  fst r = Panicked (OtherError "Can't change MaxAge on codec") /\
  Codecs (snd r) = [Some 60; None; Some 5].
Proof.
  intros r.
  destruct (SetMaxAge_outcome 60 mixedStore) as ((Ho & _) & _ & Hstop).
  destruct (Hstop [Some 0] None [Some 5]) as (_ & pre' & Hc & _);
    [reflexivity | by repeat constructor | reflexivity |].
  fold r in Ho. rewrite Ho. repeat split.
Defined.

(** An instance of X14: another session is in the request context. *)
Lemma sessions_do_not_interfere_witness :
  let cs := store AllBackends in
  let w := snd (save cs alice world0) in
  ctx (snd (delete cs (blank "xyz") w)) !! "session.abc" = ctx w !! "session.abc".
Proof.
  intros cs w.
  apply (sessions_do_not_interfere cs (blank "xyz") alice w). discriminate.
Defined.
